(** * Trust bootstrap and remote identity issuance (talos)

    A shallow embedding of
    - [pkg/config/config.go]: package [generate] (secret generation,
      address-family defaults, endpoint accessors) and package [gen]
      (the remote identity generator with endpoint failover and polling);
    - package [cis] (audit policy and encryption configuration writers).

    Go strings are byte sequences and are modelled by [string]; [[]byte]
    by [list Byte.byte]; [int] by [Z]; a function that can panic returns a
    [result] with a [Panic] case. *)

From Stdlib Require Import ZArith NArith Lia Bool List.
From Stdlib.Strings Require Import Ascii String Byte.
From stdpp Require Import gmap strings list.
Import ListNotations.

Local Open Scope string_scope.
Local Open Scope Z_scope.
Local Open Scope list_scope.

(** ** Go values shared by the packages *)

(** Go's [error] values as they occur in these packages. *)
#[warnings="-register-all"]
Inductive error : Type :=
| errorString (msg : string)           (* errors.New / fmt.Errorf *)
| multierror_Error (Errors : list error). (* *multierror.Error *)

(** Outcome of a Go call: a normal return, a non-nil [error], or a panic. *)
Inductive result (A : Type) : Type :=
| Ok (a : A)
| Err (e : error)
| Panic (msg : string).
Arguments Ok {A} a.
Arguments Err {A} e.
Arguments Panic {A} msg.

Definition bind {A B} (r : result A) (k : A -> result B) : result B :=
  match r with
  | Ok a => k a
  | Err e => Err e
  | Panic m => Panic m
  end.

Notation "'let*' x ':=' r 'in' k" := (bind r (fun x => k))
  (at level 10, x pattern, r at level 100, k at level 200).

Definition Z_of_byte (b : byte) : Z := Z.of_N (Byte.to_N b).

Definition byte_of_Z (z : Z) : byte :=
  match Byte.of_N (Z.to_N (z mod 256)) with
  | Some b => b
  | None => x00
  end.

(** [s[i]] for a constant string and an index known to be in range. *)
Definition index (s : string) (i : Z) : ascii :=
  match String.get (Z.to_nat i) s with
  | Some c => c
  | None => Ascii.zero
  end.

Fixpoint string_of_chars (l : list ascii) : string :=
  match l with
  | [] => EmptyString
  | c :: l' => String c (string_of_chars l')
  end.

Fixpoint chars (s : string) : list ascii :=
  match s with
  | EmptyString => []
  | String c s' => c :: chars s'
  end.

(** ** crypto/sha256 (Go standard library), [Sum256] *)

Module sha256.

(** The first 64 primes. *)
Definition primes : list Z :=
  [2; 3; 5; 7; 11; 13; 17; 19; 23; 29; 31; 37; 41; 43; 47; 53; 59; 61; 67;
   71; 73; 79; 83; 89; 97; 101; 103; 107; 109; 113; 127; 131; 137; 139; 149;
   151; 157; 163; 167; 173; 179; 181; 191; 193; 197; 199; 211; 223; 227;
   229; 233; 239; 241; 251; 257; 263; 269; 271; 277; 281; 283; 293; 307;
   311].

(** Integer cube root of a number below 2^105, one bit at a time. *)
Definition cbrt (n : Z) : Z :=
  fold_left (fun r b => let r' := r + 2 ^ b in
                        if r' * r' * r' <=? n then r' else r)
            (map (fun i => 34 - i) (seqZ 0 35)) 0.

(** The table [_K]: the first 32 bits of the fractional parts of the cube
    roots of the first 64 primes. *)
Definition _K : list Z :=
  Eval vm_compute in map (fun p => cbrt (p * 2 ^ 96) mod 2 ^ 32) primes.

(** uint32 arithmetic: every operation is reduced modulo 2^32. *)
Definition u32 (x : Z) : Z := x mod 2 ^ 32.
Definition rotr (n x : Z) : Z :=
  Z.lor (Z.shiftr x n) (u32 (Z.shiftl x (32 - n))).
Definition xor3 (a b c : Z) : Z := Z.lxor (Z.lxor a b) c.
Definition not32 (x : Z) : Z := Z.lxor x 0xffffffff.

(** The digest state [h0..h7]. *)
Record digest : Type := mkDigest {
  h0 : Z; h1 : Z; h2 : Z; h3 : Z; h4 : Z; h5 : Z; h6 : Z; h7 : Z
}.

(** The initial state: the first 32 bits of the fractional parts of the
    square roots of the first 8 primes. *)
Definition frac_sqrt (p : Z) : Z := Z.sqrt (p * 2 ^ 64) mod 2 ^ 32.

Definition init : digest :=
  Eval vm_compute in
    mkDigest (frac_sqrt 2) (frac_sqrt 3) (frac_sqrt 5) (frac_sqrt 7)
             (frac_sqrt 11) (frac_sqrt 13) (frac_sqrt 17) (frac_sqrt 19).

(** [w[0..15]] of a 64-byte chunk, big endian. *)
Fixpoint words (p : list Z) (n : nat) : list Z :=
  match n, p with
  | S n', a :: b :: c :: d :: p' =>
      Z.lor (Z.lor (Z.lor (Z.shiftl a 24) (Z.shiftl b 16)) (Z.shiftl c 8)) d
        :: words p' n'
  | _, _ => []
  end.

(** The message schedule, kept most recent word first: after [i] words the
    head is [w[i-1]]. *)
Fixpoint schedule (n : nat) (rw : list Z) : list Z :=
  match n with
  | O => rw
  | S n' =>
      let v1 := nth 1 rw 0 in
      let t1 := xor3 (rotr 17 v1) (rotr 19 v1) (Z.shiftr v1 10) in
      let v2 := nth 14 rw 0 in
      let t2 := xor3 (rotr 7 v2) (rotr 18 v2) (Z.shiftr v2 3) in
      schedule n' (u32 (t1 + nth 6 rw 0 + t2 + nth 15 rw 0) :: rw)
  end.

Definition round (s : digest) (kw : Z * Z) : digest :=
  let '(mkDigest a b c d e f g h) := s in
  let t1 := u32 (h + xor3 (rotr 6 e) (rotr 11 e) (rotr 25 e)
                 + Z.lxor (Z.land e f) (Z.land (not32 e) g)
                 + fst kw + snd kw) in
  let t2 := u32 (xor3 (rotr 2 a) (rotr 13 a) (rotr 22 a)
                 + xor3 (Z.land a b) (Z.land a c) (Z.land b c)) in
  mkDigest (u32 (t1 + t2)) a b c (u32 (d + t1)) e f g.

Definition block (dig : digest) (p : list Z) : digest :=
  let w := rev (schedule 48 (rev (words p 16))) in
  let s := fold_left round (combine _K w) dig in
  mkDigest (u32 (h0 dig + h0 s)) (u32 (h1 dig + h1 s))
           (u32 (h2 dig + h2 s)) (u32 (h3 dig + h3 s))
           (u32 (h4 dig + h4 s)) (u32 (h5 dig + h5 s))
           (u32 (h6 dig + h6 s)) (u32 (h7 dig + h7 s)).

(** [blockGeneric]: consume the input 64 bytes at a time. *)
Fixpoint blocks (n : nat) (dig : digest) (p : list Z) : digest :=
  match n with
  | O => dig
  | S n' => blocks n' (block dig (firstn 64 p)) (skipn 64 p)
  end.

(** [checkSum]: 0x80, zeros up to 56 mod 64, then the bit length on 8 bytes. *)
Definition padding (len : Z) : list Z :=
  let r := len mod 64 in
  let zeros := if r <? 56 then 56 - r - 1 else 64 + 56 - r - 1 in
  let bits := len * 8 in
  0x80 :: repeat 0 (Z.to_nat zeros)
    ++ map (fun i => Z.shiftr bits (8 * i) mod 256) [7; 6; 5; 4; 3; 2; 1; 0].

Definition bytes_of_word (w : Z) : list byte :=
  map (fun i => byte_of_Z (Z.shiftr w (8 * i))) [3; 2; 1; 0].

Definition Sum256 (data : list byte) : list byte :=
  let p := map Z_of_byte data in
  let p := p ++ padding (Z.of_nat (length p)) in
  let d := blocks (length p / 64)%nat init p in
  bytes_of_word (h0 d) ++ bytes_of_word (h1 d) ++ bytes_of_word (h2 d)
    ++ bytes_of_word (h3 d) ++ bytes_of_word (h4 d) ++ bytes_of_word (h5 d)
    ++ bytes_of_word (h6 d) ++ bytes_of_word (h7 d).

End sha256.

(** ** encoding/hex and encoding/base64 (Go standard library) *)

Module hex.

Definition hextable : string := "0123456789abcdef".

(** [EncodeToString]: two characters per byte, high nibble first. *)
Fixpoint Encode (src : list byte) : list ascii :=
  match src with
  | [] => []
  | v :: src' =>
      index hextable (Z.shiftr (Z_of_byte v) 4)
        :: index hextable (Z.land (Z_of_byte v) 0x0f) :: Encode src'
  end.

Definition EncodeToString (src : list byte) : string :=
  string_of_chars (Encode src).

End hex.

Module base64.

Definition encodeStd : string :=
  "ABCDEFGHIJKLMNOPQRSTUVWXYZabcdefghijklmnopqrstuvwxyz0123456789+/".

Definition StdPadding : ascii := "="%char.

Definition enc (val shift : Z) : ascii :=
  index encodeStd (Z.land (Z.shiftr val shift) 0x3F).

(** [StdEncoding.Encode]: three bytes give four characters; a tail of one
    or two bytes is padded with [=]. *)
Fixpoint Encode (src : list byte) : list ascii :=
  match src with
  | [] => []
  | [a] =>
      let val := Z.shiftl (Z_of_byte a) 16 in
      [enc val 18; enc val 12; StdPadding; StdPadding]
  | [a; b] =>
      let val := Z.lor (Z.shiftl (Z_of_byte a) 16) (Z.shiftl (Z_of_byte b) 8) in
      [enc val 18; enc val 12; enc val 6; StdPadding]
  | a :: b :: c :: src' =>
      let val := Z.lor (Z.lor (Z.shiftl (Z_of_byte a) 16)
                              (Z.shiftl (Z_of_byte b) 8)) (Z_of_byte c) in
      enc val 18 :: enc val 12 :: enc val 6 :: enc val 0 :: Encode src'
  end.

Definition EncodeToString (src : list byte) : string :=
  string_of_chars (Encode src).

End base64.

(** ** crypto/rand and bufio (Go standard library) *)

Module rand.

(** The entropy source [rand.Reader]: the bytes it still delivers, and the
    error it reports once they are used up. *)
Record Reader : Type := mkReader {
  avail : list byte;
  failure : error
}.

(** [Reader.Read(p)] with [len(p) = n]: delivers up to [n] bytes, with the
    source's error when it cannot deliver all of them. *)
Definition Read (n : nat) (r : Reader) : list byte * option error * Reader :=
  (firstn n (avail r),
   if (length (avail r) <? n)%nat then Some (failure r) else None,
   mkReader (skipn n (avail r)) (failure r)).

(** [rand.Read(b)] is [io.ReadFull(Reader, b)]. *)
Definition ReadFull (n : nat) (r : Reader) : result (list byte * Reader) :=
  match Read n r with
  | (p, None, r') => Ok (p, r')
  | (_, Some e, _) => Err e
  end.

End rand.

Module bufio.

Definition minReadBufferSize : Z := 16.
Definition ErrNoProgress : error :=
  errorString "multiple Read calls return no data or error".

(** A buffered reader: [buf] is the unread part [buf[r:w]] of the buffer. *)
Record Reader : Type := mkReader {
  buf : list byte;
  size : nat;
  rd : rand.Reader;
  err : option error
}.

Definition NewReaderSize (rd : rand.Reader) (size : Z) : Reader :=
  let size := if size <? minReadBufferSize then minReadBufferSize else size in
  mkReader [] (Z.to_nat size) rd None.

(** [fill], called on an empty buffer: one [Read] of the whole buffer. *)
Definition fill (b : Reader) : Reader :=
  match rand.Read (size b) (rd b) with
  | (p, e, rd') =>
      mkReader p (size b) rd'
        (match e, p with
         | Some e, _ => Some e
         | None, [] => Some ErrNoProgress
         | None, _ => None
         end)
  end.

Definition ReadByte (b : Reader) : result (byte * Reader) :=
  let b := match buf b, err b with
           | [], None => fill b
           | _, _ => b
           end in
  match buf b, err b with
  | c :: rest, _ => Ok (c, mkReader rest (size b) (rd b) (err b))
  | [], Some e => Err e
  | [], None => Err ErrNoProgress
  end.

(** Bytes a reader can still deliver. *)
Definition remaining (b : Reader) : nat :=
  (length (buf b) + length (rand.avail (rd b)))%nat.

End bufio.

(** ** package net (Go standard library): IP literals

    As in the Go releases the repository builds with: IPv4 octets may have
    leading zeros, and [ParseIP] accepts no zone. *)

Module net.

Definition IPv4len : Z := 4.
Definition IPv6len : Z := 16.

(** An [IP] is a byte slice of length 4 or 16; the nil slice is [None]. *)
Definition IP : Type := list byte.

Definition v4InV6Prefix : list byte :=
  [x00; x00; x00; x00; x00; x00; x00; x00; x00; x00; xff; xff].

Definition IPv4 (a b c d : byte) : IP := v4InV6Prefix ++ [a; b; c; d].

Definition big : Z := 0xFFFFFF.

Definition code (c : ascii) : Z := Z.of_N (N_of_ascii c).

Definition between (lo c hi : ascii) : bool :=
  (code lo <=? code c) && (code c <=? code hi).

(** [dtoi]: the decimal prefix of [s]; returns the number, the rest of
    the string and whether a number was read. *)
Fixpoint dtoi_loop (s : list ascii) (n : Z) (any : bool)
  : Z * list ascii * bool :=
  match s with
  | c :: s' =>
      if between "0" c "9" then
        let n := n * 10 + (code c - code "0") in
        if n >=? big then (big, s, false) else dtoi_loop s' n true
      else (n, s, any)
  | [] => (n, s, any)
  end.

Definition dtoi (s : list ascii) : Z * list ascii * bool :=
  dtoi_loop s 0 false.

(** [xtoi]: the hexadecimal prefix of [s]. *)
Fixpoint xtoi_loop (s : list ascii) (n : Z) (any : bool)
  : Z * list ascii * bool :=
  match s with
  | c :: s' =>
      let d := if between "0" c "9" then Some (code c - code "0")
               else if between "a" c "f" then Some (code c - code "a" + 10)
               else if between "A" c "F" then Some (code c - code "A" + 10)
               else None in
      match d with
      | Some d =>
          let n := n * 16 + d in
          if n >=? big then (0, s, false) else xtoi_loop s' n true
      | None => (n, s, any)
      end
  | [] => (n, s, any)
  end.

Definition xtoi (s : list ascii) : Z * list ascii * bool :=
  xtoi_loop s 0 false.

(** [parseIPv4]: four decimal octets separated by dots. *)
Fixpoint parseIPv4_loop (k : nat) (first : bool) (s : list ascii)
                        (p : list byte) : option IP :=
  match k with
  | O =>
      match s, p with
      | [], [a; b; c; d] => Some (IPv4 a b c d)
      | _, _ => None
      end
  | S k' =>
      match s with
      | [] => None
      | c :: s' =>
          let after_dot :=
            if first then Some s
            else if Ascii.eqb c "." then Some s' else None in
          match after_dot with
          | None => None
          | Some s =>
              match dtoi s with
              | (n, rest, ok) =>
                  if negb ok || (n >? 0xFF) then None
                  else parseIPv4_loop k' false rest (p ++ [byte_of_Z n])
              end
          end
      end
  end.

Definition parseIPv4 (s : list ascii) : option IP :=
  parseIPv4_loop 4 true s [].

(** The loop of [parseIPv6]: 16-bit groups in hexadecimal followed by
    colons. [ip] holds the bytes written so far, so the index [i] of the
    source is its length; every iteration writes two bytes, hence eight
    iterations at most. [None] is [return nil]; otherwise the loop ends
    with the unread input, the bytes and the position of the ellipsis. *)
Fixpoint parseIPv6_loop (fuel : nat) (s : list ascii) (ip : list byte)
                        (ellipsis : Z) : option (list ascii * list byte * Z) :=
  let i := Z.of_nat (length ip) in
  match fuel with
  | O => Some (s, ip, ellipsis)
  | S fuel' =>
      if IPv6len <=? i then Some (s, ip, ellipsis)
      else
        match xtoi s with
        | (n, rest, ok) =>
            if negb ok || (n >? 0xFFFF) then None
            else
              match rest with
              | "."%char :: _ =>
                  if (ellipsis <? 0) && negb (i =? IPv6len - IPv4len) then None
                  else if i + IPv4len >? IPv6len then None
                  else
                    match parseIPv4 s with
                    | None => None
                    | Some ip4 => Some ([], ip ++ skipn 12 ip4, ellipsis)
                    end
              | [] =>
                  Some ([], ip ++ [byte_of_Z (Z.shiftr n 8); byte_of_Z n],
                        ellipsis)
              | c :: rest' =>
                  let ip := ip ++ [byte_of_Z (Z.shiftr n 8); byte_of_Z n] in
                  let i := Z.of_nat (length ip) in
                  if negb (Ascii.eqb c ":") then None
                  else
                    match rest' with
                    | [] => None
                    | ":"%char :: rest'' =>
                        if ellipsis >=? 0 then None
                        else
                          match rest'' with
                          | [] => Some ([], ip, i)
                          | _ => parseIPv6_loop fuel' rest'' ip i
                          end
                    | _ => parseIPv6_loop fuel' rest' ip ellipsis
                    end
              end
        end
  end.

Definition parseIPv6 (s : list ascii) : option IP :=
  let start :=
    match s with
    | ":"%char :: ":"%char :: s' => (s', 0)
    | _ => (s, -1)
    end in
  match start with
  | ([], 0) => Some (repeat x00 16)
  | (s, ellipsis) =>
      match parseIPv6_loop 8 s [] ellipsis with
      | None => None
      | Some (s, ip, ellipsis) =>
          let i := Z.of_nat (length ip) in
          match s with
          | _ :: _ => None
          | [] =>
              if i <? IPv6len then
                if ellipsis <? 0 then None
                else
                  let n := Z.to_nat (IPv6len - i) in
                  Some (firstn (Z.to_nat ellipsis) ip ++ repeat x00 n
                          ++ skipn (Z.to_nat ellipsis) ip)
              else if ellipsis >=? 0 then None
              else Some ip
          end
      end
  end.

(** [ParseIP]: the first dot or colon decides between the two formats. *)
Fixpoint ParseIP_scan (s rest : list ascii) : option IP :=
  match rest with
  | [] => None
  | c :: rest' =>
      if Ascii.eqb c "." then parseIPv4 s
      else if Ascii.eqb c ":" then parseIPv6 s
      else ParseIP_scan s rest'
  end.

Definition ParseIP (s : string) : option IP :=
  ParseIP_scan (chars s) (chars s).

Definition isZeros (p : list byte) : bool :=
  forallb (fun b => Z_of_byte b =? 0) p.

(** [ip.To4()]: the 4-byte form of an IPv4 address, [None] otherwise. *)
Definition To4 (ip : IP) : option IP :=
  if Z.of_nat (length ip) =? IPv4len then Some ip
  else if (Z.of_nat (length ip) =? IPv6len)
          && isZeros (firstn 10 ip)
          && (Z_of_byte (nth 10 ip x00) =? 0xff)
          && (Z_of_byte (nth 11 ip x00) =? 0xff)
  then Some (firstn 4 (skipn 12 ip))
  else None.

(** [JoinHostPort]: a host with a colon is taken for an IPv6 literal and
    put in brackets. *)
Definition JoinHostPort (host port : string) : string :=
  if existsb (Ascii.eqb ":") (chars host)
  then String.append "[" (String.append host (String.append "]:" port))
  else String.append host (String.append ":" port).

End net.

(** ** packages os and io/ioutil (Go standard library): files *)

Module os.

(** A regular file: its contents and its permission bits. *)
Record file : Type := mkFile {
  contents : string;
  mode : Z
}.

(** The file system as the writers see it: the files by path, and whether
    the process is privileged (root passes every permission check). The
    directories of the fixed paths are taken to exist. *)
Record FS : Type := mkFS {
  files : gmap string file;
  privileged : bool
}.

Definition ErrPermission (name : string) : error :=
  errorString (String.append "open " (String.append name ": permission denied")).

(** [os.IsNotExist(err)] for the error of [os.Stat(name)]. *)
Definition Stat_IsNotExist (name : string) (fs : FS) : bool :=
  match files fs !! name with
  | None => true
  | Some _ => false
  end.

(** The owner may write: bit 0200. *)
Definition writable (f : file) (fs : FS) : bool :=
  privileged fs || Z.testbit (mode f) 7.

End os.

Module ioutil.

(** [WriteFile(filename, data, perm)]: open with
    [O_WRONLY|O_CREATE|O_TRUNC] and write. A missing file is created with
    [perm]; an existing one keeps its mode, is truncated and rewritten,
    provided it may be opened for writing. *)
Definition WriteFile (filename : string) (data : string) (perm : Z)
                     (fs : os.FS) : option error * os.FS :=
  match os.files fs !! filename with
  | None =>
      (None, os.mkFS (<[filename := os.mkFile data perm]> (os.files fs))
                     (os.privileged fs))
  | Some f =>
      if os.writable f fs then
        (None, os.mkFS (<[filename := os.mkFile data (os.mode f)]> (os.files fs))
                       (os.privileged fs))
      else (Some (os.ErrPermission filename), fs)
  end.

End ioutil.

(** ** package cis *)

Module cis.

Definition newline : string := String (ascii_of_nat 10) EmptyString.

Fixpoint lines (l : list string) : string :=
  match l with
  | [] => EmptyString
  | x :: l' => String.append x (String.append newline (lines l'))
  end.

Definition auditPolicy : string :=
  lines ["apiVersion: audit.k8s.io/v1beta1";
         "kind: Policy";
         "rules:";
         "- level: Metadata"].

(** The constant [encryptionConfig] as [template.Parse] reads it: text up to
    the action [{{ .AESCBCEncryptionSecret }}] and text after it. *)
Definition encryptionConfig : string * string :=
  (String.append
     (lines ["kind: EncryptionConfig";
             "apiVersion: v1";
             "resources:";
             "- resources:";
             "  - secrets";
             "  providers:";
             "  - aescbc:";
             "      keys:";
             "      - name: key1"])
     "        secret: ",
   String.append newline (lines ["  - identity: {}"])).

(** [t.Execute(buf, aux)]: the field is printed as it is. Neither [Parse]
    nor [Execute] fails on this constant template. *)
Definition Execute (t : string * string) (AESCBCEncryptionSecret : string)
  : string :=
  String.append (fst t) (String.append AESCBCEncryptionSecret (snd t)).

(** [CreateEncryptionToken]: 32 bytes of entropy in standard base64. *)
Definition CreateEncryptionToken (src : rand.Reader)
  : result (string * rand.Reader) :=
  let* (encryptionKey, src') := rand.ReadFull 32 src in
  let str := base64.EncodeToString encryptionKey in
  Ok (str, src').

(** The permission [0400] (octal): read by the owner only. *)
Definition perm_0400 : Z := 256.

Section Paths.

(** [constants.AuditPolicyPath] and [constants.EncryptionConfigPath]. *)
Variables AuditPolicyPath EncryptionConfigPath : string.

Definition WriteAuditPolicyToDisk (fs : os.FS) : option error * os.FS :=
  ioutil.WriteFile AuditPolicyPath auditPolicy perm_0400 fs.

Definition WriteEncryptionConfigToDisk (aescbcEncryptionSecret : string)
                                       (fs : os.FS) : option error * os.FS :=
  if os.Stat_IsNotExist EncryptionConfigPath fs then
    let buf := Execute encryptionConfig aescbcEncryptionSecret in
    match ioutil.WriteFile EncryptionConfigPath buf perm_0400 fs with
    | (Some err, fs') => (Some err, fs')
    | (None, fs') => (None, fs')
    end
  else (None, fs).

Definition EnforceCommonMasterRequirements (aescbcEncryptionSecret : string)
                                           (fs : os.FS) : option error * os.FS :=
  match WriteAuditPolicyToDisk fs with
  | (Some err, fs') => (Some err, fs')
  | (None, fs') =>
      match WriteEncryptionConfigToDisk aescbcEncryptionSecret fs' with
      | (Some err, fs'') => (Some err, fs'')
      | (None, fs'') => (None, fs'')
      end
  end.

End Paths.

End cis.

(** ** package generate *)

Module generate.

Definition DefaultIPv4PodNet : string := "10.244.0.0/16".
Definition DefaultIPv4ServiceNet : string := "10.96.0.0/12".
Definition DefaultIPv6PodNet : string := "fc00:db8:10::/56".
Definition DefaultIPv6ServiceNet : string := "fc00:db8:20::/112".

Definition validBootstrapTokenChars : string :=
  "0123456789abcdefghijklmnopqrstuvwxyz".
Definition maxByteValue : Z := 252.

(** [b < maxByteValue]: the byte is kept. *)
Definition accepted (b : byte) : bool := Z_of_byte b <? maxByteValue.

(** [validBootstrapTokenChars[int(b)%len(validBootstrapTokenChars)]]. *)
Definition tokenChar (b : byte) : ascii :=
  index validBootstrapTokenChars
    (Z_of_byte b mod Z.of_nat (String.length validBootstrapTokenChars)).

(** The inner loop of [randBytes]: read bytes until one is below
    [maxByteValue]. Every iteration consumes a byte of the reader, so
    [fuel] above [bufio.remaining] is never used up. *)
Fixpoint readAccepted (fuel : nat) (reader : bufio.Reader)
  : result (byte * bufio.Reader) :=
  match fuel with
  | O => Panic "readAccepted: fuel"
  | S fuel' =>
      let* (b, reader') := bufio.ReadByte reader in
      if accepted b then Ok (b, reader')
      else readAccepted fuel' reader'
  end.

(** The outer loop [for i := range token]. *)
Fixpoint fillToken (n : nat) (reader : bufio.Reader)
  : result (list ascii * bufio.Reader) :=
  match n with
  | O => Ok ([], reader)
  | S n' =>
      let* (b, reader') :=
        readAccepted (S (bufio.remaining reader)) reader in
      let* (token, reader'') := fillToken n' reader' in
      Ok (tokenChar b :: token, reader'')
  end.

Definition randBytes (length : Z) (src : rand.Reader)
  : result (string * rand.Reader) :=
  if length <? 0 then Panic "makeslice: len out of range"
  else
    let reader := bufio.NewReaderSize src (length * 2) in
    let* (token, reader') := fillToken (Z.to_nat length) reader in
    Ok (string_of_chars token, bufio.rd reader').

Definition generateCertificateKey (src : rand.Reader)
  : result (string * rand.Reader) :=
  let* (key, src') := randBytes 32 src in
  let hashedKey := sha256.Sum256 (list_byte_of_string key) in
  let encoded := hex.EncodeToString hashedKey in
  Ok (encoded, src').

Definition genToken (lenFirst lenSecond : Z) (src : rand.Reader)
  : result (string * rand.Reader) :=
  let* (t0, src') := randBytes lenFirst src in
  let* (t1, src'') := randBytes lenSecond src' in
  Ok (String.append t0 (String.append "." t1), src'').

(** [x509.PEMEncodedCertificateAndKey]. *)
Record PEMEncodedCertificateAndKey : Type := {
  Crt : list byte;
  Key : list byte
}.

Record Certs : Type := {
  Admin : option PEMEncodedCertificateAndKey;
  Etcd : option PEMEncodedCertificateAndKey;
  K8s : option PEMEncodedCertificateAndKey;
  OS : option PEMEncodedCertificateAndKey
}.

Record KubeadmTokens : Type := {
  BootstrapToken : string;
  AESCBCEncryptionSecret : string;
  CertificateKey : string
}.

Record TrustdInfo : Type := {
  Token : string
}.

Record Input : Type := {
  Certs_ : option Certs;
  ControlPlaneEndpoint : string;
  MasterIPs : list string;
  AdditionalSubjectAltNames : list string;
  ClusterName : string;
  ServiceDomain : string;
  PodNet : list string;
  ServiceNet : list string;
  KubernetesVersion : string;
  KubeadmTokens_ : option KubeadmTokens;
  TrustdInfo_ : option TrustdInfo;
  ExternalEtcd : bool
}.

(** [strings.Join]. *)
Fixpoint Join (elems : list string) (sep : string) : string :=
  match elems with
  | [] => EmptyString
  | [x] => x
  | x :: elems' => String.append x (String.append sep (Join elems' sep))
  end.

(** The receiver [i *Input] may be nil: [None]. *)
Definition Endpoints (i : option Input) : result string :=
  match i with
  | None => Panic "cannot Endpoints without any Master IPs"
  | Some i =>
      if Z.of_nat (length (MasterIPs i)) <? 1
      then Panic "cannot Endpoints without any Master IPs"
      else Ok (Join (MasterIPs i) ",")
  end.

Section Accessors.

(** [tnet.FormatAddress], of the repository's package [pkg/net]. *)
Variable FormatAddress : string -> string.

Definition GetAPIServerEndpoint (i : option Input) (port : string)
  : result string :=
  match i with
  | None => Panic "cannot GetControlPlaneEndpoint without any Master IPs"
  | Some i =>
      if Z.of_nat (length (MasterIPs i)) <? 1
      then Panic "cannot GetControlPlaneEndpoint without any Master IPs"
      else
        let refMaster := 0%nat in
        match nth_error (MasterIPs i) refMaster with
        | None => Panic "index out of range"
        | Some ip =>
            if String.eqb port "" then Ok (FormatAddress ip)
            else Ok (net.JoinHostPort ip port)
        end
  end.

Definition GetControlPlaneEndpoint (i : option Input) : result string :=
  match i with
  | None => Panic "cannot GetControlPlaneEndpoint without any Master IPs"
  | Some i =>
      if (Z.of_nat (length (MasterIPs i)) <? 1)
         && String.eqb (ControlPlaneEndpoint i) ""
      then Panic "cannot GetControlPlaneEndpoint without any Master IPs"
      else if negb (String.eqb (ControlPlaneEndpoint i) "")
      then Ok (ControlPlaneEndpoint i)
      else
        match nth_error (MasterIPs i) 0 with
        | None => Panic "index out of range"
        | Some ip => Ok (FormatAddress ip)
        end
  end.

End Accessors.

Definition GetAPIServerSANs (i : Input) : list string :=
  ["127.0.0.1"; "::1"] ++ MasterIPs i ++ AdditionalSubjectAltNames i.

Fixpoint isIPv6 (addrs : list string) : bool :=
  match addrs with
  | [] => false
  | a :: addrs' =>
      match net.ParseIP a with
      | Some ip =>
          match net.To4 ip with
          | None => true
          | Some _ => isIPv6 addrs'
          end
      | None => isIPv6 addrs'
      end
  end.

(** The first statement of [NewInput]: loopback address, pod network and
    service network for the address family of the masters. *)
Definition networkDefaults (masterIPs : list string)
  : string * string * string :=
  if isIPv6 masterIPs
  then ("::1", DefaultIPv6PodNet, DefaultIPv6ServiceNet)
  else ("127.0.0.1", DefaultIPv4PodNet, DefaultIPv4ServiceNet).

Section NewInput.

(** The certificate authorities and the admin certificate, made with the
    repository's package [pkg/crypto/x509] from the loopback address put in
    the admin certificate. *)
Variable newCertificates :
  list (option net.IP) -> rand.Reader -> result (Certs * rand.Reader).

Definition NewInput (clustername : string) (masterIPs : list string)
                    (kubernetesVersion : string) (src : rand.Reader)
  : result (Input * rand.Reader) :=
  match networkDefaults masterIPs with
  | (loopbackIP, podNet, serviceNet) =>
      let* (kubeadmBootstrapToken, src) := genToken 6 16 src in
      let* (kubeadmCertificateKey, src) := generateCertificateKey src in
      let* (aescbcEncryptionSecret, src) := cis.CreateEncryptionToken src in
      let* (trustdToken, src) := genToken 6 16 src in
      let kubeadmTokens :=
        {| BootstrapToken := kubeadmBootstrapToken;
           AESCBCEncryptionSecret := aescbcEncryptionSecret;
           CertificateKey := kubeadmCertificateKey |} in
      let trustdInfo := {| Token := trustdToken |} in
      let ips := [net.ParseIP loopbackIP] in
      let* (certs, src) := newCertificates ips src in
      Ok ({| Certs_ := Some certs;
             ControlPlaneEndpoint := "";
             MasterIPs := masterIPs;
             AdditionalSubjectAltNames := [];
             ClusterName := clustername;
             ServiceDomain := "cluster.local";
             PodNet := [podNet];
             ServiceNet := [serviceNet];
             KubernetesVersion := kubernetesVersion;
             KubeadmTokens_ := Some kubeadmTokens;
             TrustdInfo_ := Some trustdInfo;
             ExternalEtcd := false |}, src)
  end.

End NewInput.

End generate.

(** ** package gen: the remote identity generator *)

Module multierror.

(** [Append(err, e)] on a [*multierror.Error] that may be nil: an appended
    multi-error is flattened, any other error becomes one entry. *)
Definition Append (err : option (list error)) (e : error) : option (list error) :=
  let Errors := match err with Some l => l | None => [] end in
  match e with
  | multierror_Error inner => Some (Errors ++ inner)
  | _ => Some (Errors ++ [e])
  end.

Definition ErrorOrNil (err : option (list error)) : option error :=
  match err with
  | None => None
  | Some [] => None
  | Some l => Some (multierror_Error l)
  end.

End multierror.

Module gen.

(** [basic.NewTokenCredentials(token)]. *)
Inductive Credentials : Type :=
| NewTokenCredentials (token : string).

Record CertificateRequest : Type := {
  Csr : list byte
}.

Record CertificateResponse : Type := {
  Ca : list byte;
  Crt : list byte
}.

Section Connection.

(** [*grpc.ClientConn], and [basic.NewConnection] of the repository's
    package [pkg/grpc/middleware/auth/basic]: a connection, or the message
    of the dial error. *)
Variable ClientConn : Type.
Variable NewConnection : string -> Z -> Credentials -> ClientConn + string.

(** [securityapi.NewSecurityClient(conn)]. *)
Inductive SecurityClient : Type :=
| NewSecurityClient (cc : ClientConn).

(** The [client] field is an interface value, nil when [None]. *)
Record RemoteGenerator : Type := {
  client : option SecurityClient
}.

(** The state of the endpoint loop when it is left: the endpoints dialed so
    far, in the order of the calls, and the local [multiError]. *)
Record dialState : Type := {
  dialed : list string;
  multiError : option (list error)
}.

(** The loop [for i := 0; i < len(endpoints); i++] and the return after it. *)
Fixpoint connect (endpoints : list string) (port : Z) (creds : Credentials)
                 (st : dialState)
  : option RemoteGenerator * option error * dialState :=
  match endpoints with
  | [] => (None, multierror.ErrorOrNil (multiError st), st)
  | ep :: endpoints' =>
      let st := {| dialed := dialed st ++ [ep]; multiError := multiError st |} in
      match NewConnection ep port creds with
      | inr err =>
          connect endpoints' port creds
            {| dialed := dialed st;
               multiError := multierror.Append (multiError st) (errorString err) |}
      | inl conn =>
          let client := NewSecurityClient conn in
          (Some {| client := Some client |}, None, st)
      end
  end.

Definition NewRemoteGenerator_run (token : string) (endpoints : list string)
                                  (port : Z)
  : option RemoteGenerator * option error * dialState :=
  let st0 := {| dialed := []; multiError := None |} in
  if Z.of_nat (length endpoints) =? 0 then
    (None,
     Some (errorString "at least one root of trust endpoint is required"),
     st0)
  else
    let creds := NewTokenCredentials token in
    connect endpoints port creds st0.

Definition NewRemoteGenerator (token : string) (endpoints : list string)
                              (port : Z)
  : option RemoteGenerator * option error :=
  fst (NewRemoteGenerator_run token endpoints port).

End Connection.

(** *** Polling *)

(** Time in milliseconds since [poll] was entered. *)
Definition timeout_after : N := 5 * 60 * 1000. (* time.Minute * 5 *)
Definition tick_every : N := 5 * 1000.        (* time.Second * 5 *)

(** What surrounds one call of [poll]: the answer of the trust service to
    the [k]-th [client.Certificate] call and the time that call takes, the
    case [select] takes when both channels are ready ([true]: the tick), and
    the moment the caller of the issuance gives up, if ever. [Certificate]
    runs every call under [context.Background()], and neither [Identity] nor
    [poll] has a parameter for the caller's signal. *)
Record world : Type := {
  certificate : CertificateRequest -> nat -> CertificateResponse + error;
  latency : nat -> N;
  pick : nat -> bool;
  cancel_at : option N
}.

(** [g.Certificate(in)], the [k]-th call: the response, or the error of
    the client call. *)
Definition Certificate (w : world) (k : nat) (req : CertificateRequest)
  : CertificateResponse + error :=
  match certificate w req k with
  | inr err => inr err
  | inl resp => inl resp
  end.

(** What [poll] returns, and when. *)
Record returned : Type := {
  ca : list byte;
  crt : list byte;
  err : option error;
  at_time : N
}.

(** The [for { select { ... } }] loop. [now] is the time the [select] is
    entered, [nextTick] the time of the tick waiting in (or next sent to) the
    ticker's channel, [k] the number of calls made. The [select] blocks
    until [t], the first moment a channel is ready. A tick that falls while
    a call is running waits in the channel, later ones are dropped by the
    ticker. [None]: the loop is still running when [fuel] iterations are
    done. *)
Fixpoint poll_loop (fuel : nat) (w : world) (req : CertificateRequest)
                   (now nextTick : N) (k : nat) : option returned :=
  match fuel with
  | O => None
  | S fuel' =>
      let t := N.max now (N.min timeout_after nextTick) in
      let timeout_ready := (timeout_after <=? t)%N in
      let tick_ready := (nextTick <=? t)%N in
      if timeout_ready && (negb tick_ready || negb (pick w k)) then
        Some {| ca := []; crt := [];
                err := Some (errorString "timeout waiting for certificate");
                at_time := t |}
      else
        let t' := (t + latency w k)%N in
        match Certificate w k req with
        | inr err =>
            poll_loop fuel' w req t' (tick_every * (t / tick_every + 1))%N (S k)
        | inl resp =>
            Some {| ca := Ca resp; crt := Crt resp; err := None; at_time := t' |}
        end
  end.

Definition poll (fuel : nat) (w : world) (req : CertificateRequest)
  : option returned :=
  poll_loop fuel w req 0 tick_every 0.

(** [Identity(csr)], with [csr.X509CertificateRequestPEM] for [csr]. *)
Definition Identity (fuel : nat) (w : world) (X509CertificateRequestPEM : list byte)
  : option returned :=
  let req := {| Csr := X509CertificateRequestPEM |} in
  match poll fuel w req with
  | Some r =>
      match err r with
      | Some e => Some {| ca := []; crt := []; err := Some e; at_time := at_time r |}
      | None => Some {| ca := ca r; crt := crt r; err := None; at_time := at_time r |}
      end
  | None => None
  end.

End gen.

(** * Vocabulary of the statements, and sample inputs *)

Import generate.

(** The bytes a buffered reader has yet to deliver, in order. *)
Definition stream (b : bufio.Reader) : list byte :=
  bufio.buf b ++ rand.avail (bufio.rd b).

(** A reader as [NewReaderSize] builds it and [ReadByte] keeps it. *)
Definition reader_ok (b : bufio.Reader) : Prop :=
  (0 < bufio.size b)%nat /\
  (bufio.err b <> None -> rand.avail (bufio.rd b) = []).

(** Number of byte values that are kept and mapped to the character [c]. *)
Definition preimages (c : ascii) : nat :=
  length (List.filter
            (fun v => (v <? maxByteValue)
                      && Ascii.eqb (index validBootstrapTokenChars
                                      (v mod Z.of_nat (String.length validBootstrapTokenChars))) c)
            (seqZ 0 256)).

(** A sample entropy source: the bytes 250, 1, 8, ... (steps of 7 modulo
    256), failing with "entropy" once they are used up. *)
Definition sample_source : rand.Reader :=
  rand.mkReader (map (fun i => byte_of_Z (7 * i + 250)) (seqZ 0 80))
                (errorString "entropy").

(** An address that parses and has an IPv4 form. *)
Definition isIPv4 (a : string) : Prop :=
  exists ip ip4, net.ParseIP a = Some ip /\ net.To4 ip = Some ip4.

(** A certificate generator that always succeeds, with no certificates. *)
Definition noCertificates (ips : list (option net.IP)) (src : rand.Reader)
  : result (Certs * rand.Reader) :=
  Ok ({| Admin := None; Etcd := None; K8s := None; OS := None |}, src).

(** An entropy source of 256 bytes 0, 1, ..., 255. *)
Definition counting_source : rand.Reader :=
  rand.mkReader (map byte_of_Z (seqZ 0 256)) (errorString "entropy").

Definition sample_input (masterIPs : list string) (controlPlaneEndpoint : string)
  : Input :=
  {| Certs_ := None;
     ControlPlaneEndpoint := controlPlaneEndpoint;
     MasterIPs := masterIPs;
     AdditionalSubjectAltNames := [];
     ClusterName := "c";
     ServiceDomain := "cluster.local";
     PodNet := [DefaultIPv4PodNet];
     ServiceNet := [DefaultIPv4ServiceNet];
     KubernetesVersion := "1.16";
     KubeadmTokens_ := None;
     TrustdInfo_ := None;
     ExternalEtcd := false |}.

Definition lower_alnum (c : ascii) : bool :=
  net.between "0" c "9" || net.between "a" c "z".

Definition lower_hex (c : ascii) : bool :=
  net.between "0" c "9" || net.between "a" c "f".

(** The regular expression [^[0-9a-z]{6}\.[0-9a-z]{16}$]. *)
Definition token_format (s : string) : bool :=
  let cs := chars s in
  (length cs =? 23)%nat
  && forallb lower_alnum (firstn 6 cs)
  && Ascii.eqb (nth 6 cs Ascii.zero) "."
  && forallb lower_alnum (skipn 7 cs).

Definition base64_char (c : ascii) : bool :=
  existsb (Ascii.eqb c) (chars base64.encodeStd) || Ascii.eqb c base64.StdPadding.

(** The file system after a first bootstrap that found neither file. *)
Definition bootstrapped (AuditPolicyPath EncryptionConfigPath secret : string)
                        (fs : os.FS) : os.FS :=
  os.mkFS
    (<[EncryptionConfigPath :=
         os.mkFile (cis.Execute cis.encryptionConfig secret) cis.perm_0400]>
       (<[AuditPolicyPath := os.mkFile cis.auditPolicy cis.perm_0400]>
          (os.files fs)))
    (os.privileged fs).

Definition sample_AuditPolicyPath : string :=
  "/etc/kubernetes/audit-policy.yaml".
Definition sample_EncryptionConfigPath : string :=
  "/etc/kubernetes/encryptionconfig.yaml".

(** A fresh node, and a node whose audit policy file holds another policy. *)
Definition fresh_fs : os.FS := os.mkFS ∅ true.
Definition stale_policy_fs : os.FS :=
  os.mkFS {[ sample_AuditPolicyPath :=
               os.mkFile "rules: []" cis.perm_0400 ]} true.

(** The dial of [ep] fails, with the error [x]. *)
Definition dial_failed {ClientConn : Type}
    (NewConnection : string -> Z -> gen.Credentials -> ClientConn + string)
    (port : Z) (creds : gen.Credentials) (ep : string) (x : error) : Prop :=
  exists msg, NewConnection ep port creds = inr msg /\ x = errorString msg.

(** The entries of a [*multierror.Error] that may be nil. *)
Definition errors_of (m : option (list error)) : list error :=
  match m with
  | Some l => l
  | None => []
  end.

(** A network in which 10.0.0.1 and 10.0.0.2 refuse the connection and every
    other endpoint accepts it; the connection is named by its endpoint. *)
Definition refusing_two (ep : string) (port : Z) (creds : gen.Credentials)
  : string + string :=
  if String.eqb ep "10.0.0.1" || String.eqb ep "10.0.0.2"
  then inr (String.append "dial " (String.append ep ": connection refused"))
  else inl ep.

Definition timeout_error : error :=
  errorString "timeout waiting for certificate".

(** The time of the tick that precedes the [k]-th call, when no call lasts
    longer than the interval. *)
Definition tick_time (k : nat) : N := (gen.tick_every * N.of_nat (S k))%N.

Definition sample_request : gen.CertificateRequest :=
  {| gen.Csr := list_byte_of_string "-----BEGIN CERTIFICATE REQUEST-----" |}.

(** A trust service that answers every call at once, without error and
    without certificate. *)
Definition never_issued : gen.world :=
  {| gen.certificate := fun _ _ => inl {| gen.Ca := []; gen.Crt := [] |};
     gen.latency := fun _ => 0%N;
     gen.pick := fun _ => true;
     gen.cancel_at := None |}.

(** A trust service that fails every call after 20 ms, and a caller that
    gives up after 7 seconds. *)
Definition unavailable_cancelled : gen.world :=
  {| gen.certificate := fun _ _ => inr (errorString "rpc error: unavailable");
     gen.latency := fun _ => 20%N;
     gen.pick := fun _ => true;
     gen.cancel_at := Some 7000%N |}.

(** A trust service that fails two calls and issues on the third. *)
Definition issued_on_third : gen.world :=
  {| gen.certificate := fun _ k =>
       if (k <? 2)%nat then inr (errorString "rpc error: unavailable")
       else inl {| gen.Ca := list_byte_of_string "CA";
                   gen.Crt := list_byte_of_string "CRT" |};
     gen.latency := fun _ => 20%N;
     gen.pick := fun _ => true;
     gen.cancel_at := None |}.


(** A trust service that fails every call, the first one after 15 minutes. *)
Definition slow_first_call : gen.world :=
  {| gen.certificate := fun _ _ => inr (errorString "rpc error: unavailable");
     gen.latency := fun k => if (k =? 0)%nat then 900000%N else 20%N;
     gen.pick := fun _ => true;
     gen.cancel_at := None |}.

(** A trust service that fails every call after exactly one tick interval,
    with a [select] that takes the tick whenever it is ready. *)
Definition tick_long_calls : gen.world :=
  {| gen.certificate := fun _ _ => inr (errorString "rpc error: unavailable");
     gen.latency := fun _ => gen.tick_every;
     gen.pick := fun _ => true;
     gen.cancel_at := None |}.
(** * Properties *)

(** ** The buffered reader delivers the source's bytes in order *)

Lemma NewReaderSize_ok src size :
  reader_ok (bufio.NewReaderSize src size) /\
  stream (bufio.NewReaderSize src size) = rand.avail src.
Proof.
  unfold bufio.NewReaderSize, reader_ok, stream, bufio.minReadBufferSize.
  simpl. split; [split|reflexivity].
  - destruct (size <? 16) eqn:E; [lia|]. apply Z.ltb_ge in E. lia.
  - congruence.
Qed.

Lemma ReadByte_nil b :
  reader_ok b -> stream b = [] -> exists e, bufio.ReadByte b = Err e.
Proof.
  intros [Hsz Herr] Hs. unfold stream in Hs.
  apply app_eq_nil in Hs as [Hb Ha].
  unfold bufio.ReadByte. rewrite Hb.
  destruct (bufio.err b) as [e|] eqn:He; [rewrite Hb, He; eauto|].
  unfold bufio.fill, rand.Read. rewrite Ha. simpl.
  destruct (bufio.size b); [lia|]. simpl. eauto.
Qed.

Lemma ReadByte_cons b c rest :
  reader_ok b -> stream b = c :: rest ->
  exists b', bufio.ReadByte b = Ok (c, b') /\ reader_ok b' /\ stream b' = rest.
Proof.
  intros [Hsz Herr] Hs. unfold stream in Hs. unfold bufio.ReadByte.
  destruct (bufio.buf b) as [|c0 buf0] eqn:Hb.
  - simpl in Hs.
    destruct (bufio.err b) as [e|] eqn:He.
    { rewrite Herr in Hs by congruence. discriminate. }
    unfold bufio.fill, rand.Read. rewrite Hs.
    destruct (bufio.size b) as [|sz] eqn:Hsize; [lia|]. simpl.
    eexists. split; [reflexivity|]. unfold reader_ok, stream. simpl.
    split; [split; [lia|]|apply firstn_skipn].
    destruct (S (length rest) <? S sz)%nat eqn:E.
    + intros _. apply Nat.ltb_lt in E. apply skipn_all2. lia.
    + destruct (firstn sz rest); congruence.
  - simpl in Hs. injection Hs as -> Hrest. simpl. rewrite Hb.
    eexists. split; [reflexivity|]. unfold reader_ok, stream. simpl.
    auto.
Qed.

(** ** Rejection sampling *)

Lemma readAccepted_spec l : forall b fuel,
  reader_ok b -> stream b = l -> (length l < fuel)%nat ->
  match List.filter accepted l with
  | [] => exists e, readAccepted fuel b = Err e
  | c :: acc =>
      exists b', readAccepted fuel b = Ok (c, b') /\ reader_ok b' /\
                 List.filter accepted (stream b') = acc
  end.
Proof.
  induction l as [|x l IH]; intros b fuel Hok Hs Hfuel;
    (destruct fuel as [|fuel]; [simpl in Hfuel; lia|]); simpl.
  - destruct (ReadByte_nil b Hok Hs) as [e He]. rewrite He. simpl. eauto.
  - destruct (ReadByte_cons b x l Hok Hs) as (b' & Hr & Hok' & Hs').
    rewrite Hr. simpl. destruct (accepted x) eqn:Hx.
    + exists b'. rewrite Hs'. auto.
    + apply IH; auto. simpl in Hfuel. lia.
Qed.

Lemma fillToken_spec n : forall b,
  reader_ok b ->
  let acc := List.filter accepted (stream b) in
  if (n <=? length acc)%nat
  then exists b', fillToken n b = Ok (map tokenChar (firstn n acc), b')
  else exists e, fillToken n b = Err e.
Proof.
  induction n as [|n IH]; intros b Hok acc; [simpl; eauto|].
  assert (Hlt : (length (stream b) < S (bufio.remaining b))%nat).
  { unfold bufio.remaining, stream. rewrite length_app. lia. }
  pose proof (readAccepted_spec (stream b) b _ Hok eq_refl Hlt) as Hr.
  fold acc in Hr.
  cbn [fillToken]. destruct acc as [|c acc'] eqn:Hacc.
  - destruct Hr as [e He]. rewrite He. simpl. eauto.
  - destruct Hr as (b' & Hr & Hok' & Hs'). rewrite Hr. cbn [bind].
    specialize (IH b' Hok'). cbn zeta in IH. rewrite Hs' in IH.
    change (S n <=? length (c :: acc'))%nat with (n <=? length acc')%nat.
    destruct (n <=? length acc')%nat.
    + destruct IH as [b'' IH]. rewrite IH. simpl. eauto.
    + destruct IH as [e IH]. rewrite IH. simpl. eauto.
Qed.

Lemma chars_string_of_chars l : chars (string_of_chars l) = l.
Proof. induction l; simpl; congruence. Qed.

Lemma length_chars s : length (chars s) = String.length s.
Proof. induction s; simpl; congruence. Qed.

(** [randBytes] in closed form: the first [length] accepted bytes of the
    source, each mapped to its character; an error when the source holds
    fewer accepted bytes. *)
Lemma randBytes_spec n src :
  0 <= n ->
  let acc := List.filter accepted (rand.avail src) in
  if (Z.to_nat n <=? length acc)%nat
  then exists src',
      randBytes n src
      = Ok (string_of_chars (map tokenChar (firstn (Z.to_nat n) acc)), src')
  else exists e, randBytes n src = Err e.
Proof.
  intros Hn acc. unfold randBytes.
  destruct (n <? 0) eqn:E; [apply Z.ltb_lt in E; lia|].
  destruct (NewReaderSize_ok src (n * 2)) as [Hok Hs].
  pose proof (fillToken_spec (Z.to_nat n) _ Hok) as H. cbn zeta in H.
  rewrite Hs in H. fold acc in H.
  destruct (Z.to_nat n <=? length acc)%nat.
  - destruct H as [b' H]. rewrite H. simpl. eauto.
  - destruct H as [e H]. rewrite H. simpl. eauto.
Qed.

Lemma get_In s : forall n c, String.get n s = Some c -> In c (chars s).
Proof.
  induction s as [|a s IH]; intros [|n] c H; simpl in *;
    try discriminate; [left; congruence | right; eauto].
Qed.

Lemma get_lt s : forall n, (n < String.length s)%nat ->
  exists c, String.get n s = Some c.
Proof.
  induction s as [|a s IH]; intros [|n] H; simpl in *; try lia; eauto.
  apply IH. lia.
Qed.

Lemma index_In s i :
  0 <= i < Z.of_nat (String.length s) -> In (index s i) (chars s).
Proof.
  intros H. unfold index.
  destruct (get_lt s (Z.to_nat i)) as [c Hc]; [lia|].
  rewrite Hc. eapply get_In; eauto.
Qed.

Lemma tokenChar_In b : In (tokenChar b) (chars validBootstrapTokenChars).
Proof.
  apply index_In. apply Z.mod_pos_bound. reflexivity.
Qed.

(** What a successful [randBytes] returns, and when it succeeds. *)
Lemma randBytes_rejection_sampling_aux (n : Z) (src : rand.Reader) :
  let acc := List.filter accepted (rand.avail src) in
  (forall tok src', randBytes n src = Ok (tok, src') ->
     Z.of_nat (String.length tok) = n /\
     Forall (fun c => In c (chars validBootstrapTokenChars)) (chars tok) /\
     chars tok = map tokenChar (firstn (Z.to_nat n) acc)) /\
  (0 <= n <= Z.of_nat (length acc) ->
     exists tok src', randBytes n src = Ok (tok, src')).
Proof.
  intros acc.
  assert (Hsucc : forall tok src', randBytes n src = Ok (tok, src') ->
            (Z.to_nat n <= length acc)%nat /\ 0 <= n /\
            tok = string_of_chars (map tokenChar (firstn (Z.to_nat n) acc))).
  { intros tok src' H.
    destruct (Z.ltb_spec n 0) as [Hn|Hn];
      [unfold randBytes in H; apply Z.ltb_lt in Hn; rewrite Hn in H;
       discriminate|].
    pose proof (randBytes_spec n src Hn) as S. cbn zeta in S. fold acc in S.
    destruct (Nat.leb_spec (Z.to_nat n) (length acc)) as [Hle|Hgt].
    - destruct S as [s' S]. rewrite S in H. injection H as <- _. auto.
    - destruct S as [e S]. congruence. }
  split.
  - intros tok src' H. destruct (Hsucc _ _ H) as (Hle & Hn & ->).
    rewrite <- length_chars, chars_string_of_chars, length_map, length_firstn.
    split; [lia|]. split; [|reflexivity].
    apply List.Forall_forall. intros c Hc.
    apply in_map_iff in Hc as (b & <- & _). apply tokenChar_In.
  - intros [Hn Hle].
    pose proof (randBytes_spec n src Hn) as S. cbn zeta in S. fold acc in S.
    destruct (Nat.leb_spec (Z.to_nat n) (length acc)) as [_|Hgt]; [|lia].
    destruct S as [s' S]. eauto.
Qed.

(** C6. For every requested length and entropy source, a token returned by
    [randBytes] has exactly the requested length, consists of characters of
    the 36-symbol alphabet, and is obtained by rejection sampling: bytes at
    or above 252 are skipped and each kept byte is mapped modulo 36 to a
    character. A source holding enough kept bytes always yields a token, and
    every symbol of the alphabet is the image of exactly 7 kept byte
    values. *)
Theorem randBytes_rejection_sampling (n : Z) (src : rand.Reader) :
  let acc := List.filter accepted (rand.avail src) in
  (forall tok src', randBytes n src = Ok (tok, src') ->
     Z.of_nat (String.length tok) = n /\
     Forall (fun c => In c (chars validBootstrapTokenChars)) (chars tok) /\
     chars tok = map tokenChar (firstn (Z.to_nat n) acc)) /\
  (0 <= n <= Z.of_nat (length acc) ->
     exists tok src', randBytes n src = Ok (tok, src')) /\
  (forall b, accepted b = true <-> Z_of_byte b < 252) /\
  (forall b, tokenChar b = index validBootstrapTokenChars (Z_of_byte b mod 36)) /\
  String.length validBootstrapTokenChars = 36%nat /\
  NoDup (chars validBootstrapTokenChars) /\
  (forall c, In c (chars validBootstrapTokenChars) -> preimages c = 7%nat).
Proof.
  intros acc.
  destruct (randBytes_rejection_sampling_aux n src) as [H1 H2].
  split; [exact H1|]. split; [exact H2|].
  split; [|split; [|split; [|split]]].
  - intros b. unfold accepted, maxByteValue. apply Z.ltb_lt.
  - reflexivity.
  - reflexivity.
  - apply (bool_decide_unpack _). vm_compute. reflexivity.
  - intros c Hc. simpl in Hc.
    repeat (destruct Hc as [<-|Hc]; [vm_compute; reflexivity|]).
    contradiction.
Qed.

Lemma randBytes_rejection_sampling_witness :
  randBytes 6 sample_source
  = Ok ("y18fmt", rand.mkReader (skipn 16 (rand.avail sample_source))
                                (errorString "entropy")) /\
  chars "y18fmt"
  = map tokenChar
      (firstn 6 (List.filter accepted (rand.avail sample_source))) /\
  exists tok src', randBytes 16 sample_source = Ok (tok, src').
Proof.
  split; [vm_compute; reflexivity|]. split.
  - apply (proj1 (randBytes_rejection_sampling 6 sample_source) "y18fmt"
             (rand.mkReader (skipn 16 (rand.avail sample_source))
                            (errorString "entropy"))).
    vm_compute. reflexivity.
  - apply (proj1 (proj2 (randBytes_rejection_sampling 16 sample_source))).
    vm_compute. split; discriminate.
Defined.

(** ** Address family of the masters *)

Lemma isIPv6_spec addrs :
  isIPv6 addrs = true <->
  exists a ip, In a addrs /\ net.ParseIP a = Some ip /\ net.To4 ip = None.
Proof.
  induction addrs as [|a addrs IH]; simpl.
  - split; [discriminate|]. intros (a & ip & [] & _).
  - destruct (net.ParseIP a) as [ip|] eqn:Hp.
    + destruct (net.To4 ip) as [ip4|] eqn:H4.
      * rewrite IH. split.
        -- intros (a' & ip' & Hin & H). exists a', ip'. auto.
        -- intros (a' & ip' & [<-|Hin] & Hp' & H4'); [congruence|eauto].
      * split; [|reflexivity]. intros _. exists a, ip. auto.
    + rewrite IH. split.
      * intros (a' & ip' & Hin & H). exists a', ip'. auto.
      * intros (a' & ip' & [<-|Hin] & Hp' & H4'); [congruence|eauto].
Qed.

Lemma bind_Ok {A B} (r : result A) (k : A -> result B) b :
  bind r k = Ok b -> exists a, r = Ok a /\ k a = Ok b.
Proof. destruct r; simpl; intros H; try discriminate; eauto. Qed.

(** Invert a chain of [let*] that ended in [Ok]. *)
Ltac bind_inv H :=
  repeat match type of H with
         | bind ?r ?k = Ok _ =>
             let a := fresh "a" in
             let Ha := fresh "Hstep" in
             apply bind_Ok in H as (a & Ha & H); try destruct a as [? ?];
             cbn beta iota in H
         end.

(** C2, as the code has it. [NewInput] selects the IPv6 defaults (pod
    network fc00:db8:10::/56, service network fc00:db8:20::/112, loopback
    ::1) exactly when some master IP parses as an address without IPv4
    form, and the IPv4 defaults (10.244.0.0/16, 10.96.0.0/12, 127.0.0.1) in
    every other case; the selected networks are those of the returned
    input and the selected loopback is the one handed to the certificate
    generation. *)
Theorem NewInput_network_defaults
    (newCertificates : list (option net.IP) -> rand.Reader
                       -> result (Certs * rand.Reader))
    (clustername : string) (masterIPs : list string)
    (kubernetesVersion : string) (src : rand.Reader) :
  let v6 := exists a ip, In a masterIPs /\ net.ParseIP a = Some ip
                         /\ net.To4 ip = None in
  (v6 -> networkDefaults masterIPs
         = ("::1", "fc00:db8:10::/56", "fc00:db8:20::/112")) /\
  (~ v6 -> networkDefaults masterIPs
           = ("127.0.0.1", "10.244.0.0/16", "10.96.0.0/12")) /\
  (forall inp src',
     NewInput newCertificates clustername masterIPs kubernetesVersion src
     = Ok (inp, src') ->
     MasterIPs inp = masterIPs /\
     (exists loopbackIP,
        networkDefaults masterIPs = (loopbackIP, hd "" (PodNet inp),
                                     hd "" (ServiceNet inp)) /\
        length (PodNet inp) = 1%nat /\ length (ServiceNet inp) = 1%nat /\
        exists src1 certs,
          newCertificates [net.ParseIP loopbackIP] src1 = Ok (certs, src') /\
          Certs_ inp = Some certs)).
Proof.
  intros v6. pose proof (isIPv6_spec masterIPs) as Hspec. fold v6 in Hspec.
  split; [|split].
  - intros H. unfold networkDefaults. apply Hspec in H. rewrite H. reflexivity.
  - intros H. unfold networkDefaults.
    destruct (isIPv6 masterIPs); [exfalso; apply H, Hspec; reflexivity|].
    reflexivity.
  - intros inp src' H. unfold NewInput in H.
    destruct (networkDefaults masterIPs) as [[loopbackIP podNet] serviceNet].
    bind_inv H. injection H as <- <-. simpl.
    split; [reflexivity|]. exists loopbackIP. eauto 8.
Qed.

Lemma NewInput_network_defaults_witness :
  networkDefaults ["fc00::1"; "fc00::2"]
  = ("::1", "fc00:db8:10::/56", "fc00:db8:20::/112") /\
  networkDefaults ["10.0.0.1"; "10.0.0.2"]
  = ("127.0.0.1", "10.244.0.0/16", "10.96.0.0/12").
Proof.
  split.
  - apply (proj1 (NewInput_network_defaults noCertificates "c"
                    ["fc00::1"; "fc00::2"] "1.16" counting_source)).
    exists "fc00::1", (byte_of_Z 252 :: repeat x00 14 ++ [byte_of_Z 1]).
    split; [left; reflexivity|]. split; vm_compute; reflexivity.
  - apply (proj1 (proj2 (NewInput_network_defaults noCertificates "c"
                    ["10.0.0.1"; "10.0.0.2"] "1.16" counting_source))).
    intros H. apply isIPv6_spec in H. vm_compute in H. discriminate.
Defined.

(** C2, as stated, fails: with an IPv4 master and an IPv6 master, an IPv4
    address is present and [NewInput] selects the IPv6 defaults. *)
Lemma NewInput_mixed_masters_counterexample :
  let masterIPs := ["10.0.0.1"; "fc00::1"] in
  In "10.0.0.1" masterIPs /\ isIPv4 "10.0.0.1" /\
  networkDefaults masterIPs
  = ("::1", "fc00:db8:10::/56", "fc00:db8:20::/112") /\
  (exists inp src',
     NewInput noCertificates "c" masterIPs "1.16" counting_source
     = Ok (inp, src') /\
     PodNet inp = ["fc00:db8:10::/56"] /\
     ServiceNet inp = ["fc00:db8:20::/112"]) /\
  ~ (forall masterIPs,
       (exists a, In a masterIPs /\ isIPv4 a) ->
       networkDefaults masterIPs
       = ("127.0.0.1", "10.244.0.0/16", "10.96.0.0/12")).
Proof.
  assert (H4 : isIPv4 "10.0.0.1").
  { eexists _, _. split; vm_compute; reflexivity. }
  cbn zeta. split; [left; reflexivity|]. split; [exact H4|].
  split; [vm_compute; reflexivity|]. split.
  - eexists _, _. split; [vm_compute; reflexivity|].
    split; reflexivity.
  - intros H. specialize (H ["10.0.0.1"; "fc00::1"]).
    assert (Hx : exists a, In a ["10.0.0.1"; "fc00::1"] /\ isIPv4 a).
    { exists "10.0.0.1". split; [left; reflexivity|exact H4]. }
    apply H in Hx. vm_compute in Hx. discriminate.
Qed.

(** ** Endpoint accessors *)

(** C8. With an empty list of master IPs, [Endpoints] and
    [GetAPIServerEndpoint] panic, and so does [GetControlPlaneEndpoint]
    when no control-plane endpoint is set: none of them returns an error
    value. With a non-empty list every accessor returns normally. *)
Theorem accessors_abort_on_empty_masters
    (FormatAddress : string -> string) (i : Input) (port : string) :
  (MasterIPs i = [] ->
     Endpoints (Some i) = Panic "cannot Endpoints without any Master IPs" /\
     GetAPIServerEndpoint FormatAddress (Some i) port
     = Panic "cannot GetControlPlaneEndpoint without any Master IPs" /\
     (ControlPlaneEndpoint i = "" ->
        GetControlPlaneEndpoint FormatAddress (Some i)
        = Panic "cannot GetControlPlaneEndpoint without any Master IPs") /\
     (ControlPlaneEndpoint i <> "" ->
        GetControlPlaneEndpoint FormatAddress (Some i)
        = Ok (ControlPlaneEndpoint i))) /\
  (MasterIPs i <> [] ->
     (exists s, Endpoints (Some i) = Ok s) /\
     (exists s, GetAPIServerEndpoint FormatAddress (Some i) port = Ok s) /\
     (exists s, GetControlPlaneEndpoint FormatAddress (Some i) = Ok s)).
Proof.
  unfold Endpoints, GetAPIServerEndpoint, GetControlPlaneEndpoint.
  split.
  - intros ->. simpl. repeat split.
    + intros ->. reflexivity.
    + intros H. destruct (String.eqb_spec (ControlPlaneEndpoint i) "");
        [contradiction|reflexivity].
  - intros H. destruct (MasterIPs i) as [|ip rest]; [contradiction|].
    cbn [length nth_error].
    replace (Z.of_nat (S (length rest)) <? 1) with false
      by (symmetry; apply Z.ltb_ge; lia).
    cbn [andb negb]. repeat split; eauto.
    + destruct (String.eqb port ""); eauto.
    + destruct (String.eqb (ControlPlaneEndpoint i) ""); simpl; eauto.
Qed.

Lemma accessors_abort_on_empty_masters_witness :
  (Endpoints (Some (sample_input [] ""))
   = Panic "cannot Endpoints without any Master IPs" /\
   GetControlPlaneEndpoint (fun a => a) (Some (sample_input [] ""))
   = Panic "cannot GetControlPlaneEndpoint without any Master IPs") /\
  exists s, Endpoints (Some (sample_input ["10.0.0.1"; "10.0.0.2"] "")) = Ok s.
Proof.
  split.
  - destruct (proj1 (accessors_abort_on_empty_masters
                       (fun a => a) (sample_input [] "") "6443") eq_refl)
      as (H1 & _ & H3 & _).
    split; [exact H1|apply H3; reflexivity].
  - apply (proj2 (accessors_abort_on_empty_masters
                    (fun a => a) (sample_input ["10.0.0.1"; "10.0.0.2"] "")
                    "6443")).
    discriminate.
Defined.

(** C9. With a non-empty list of master IPs and a non-empty port,
    [GetAPIServerEndpoint] returns the first master IP joined with the port,
    whatever follows the first master: host:port for a host without colon,
    as in 10.0.0.1:6443 for the masters 10.0.0.1, 10.0.0.2, 10.0.0.3. *)
Theorem GetAPIServerEndpoint_first_master
    (FormatAddress : string -> string) (i : Input)
    (ip : string) (rest : list string) (port : string) :
  MasterIPs i = ip :: rest -> port <> "" ->
  GetAPIServerEndpoint FormatAddress (Some i) port
  = Ok (net.JoinHostPort ip port) /\
  (existsb (Ascii.eqb ":") (chars ip) = false ->
   net.JoinHostPort ip port = String.append ip (String.append ":" port)) /\
  (ip = "10.0.0.1" -> port = "6443" ->
   GetAPIServerEndpoint FormatAddress (Some i) port = Ok "10.0.0.1:6443").
Proof.
  intros Hm Hport.
  assert (H : GetAPIServerEndpoint FormatAddress (Some i) port
              = Ok (net.JoinHostPort ip port)).
  { unfold GetAPIServerEndpoint. rewrite Hm. cbn [length nth_error].
    replace (Z.of_nat (S (length rest)) <? 1) with false
      by (symmetry; apply Z.ltb_ge; lia).
    destruct (String.eqb_spec port ""); [contradiction|reflexivity]. }
  split; [exact H|]. split.
  - intros Hc. unfold net.JoinHostPort. rewrite Hc. reflexivity.
  - intros -> ->. rewrite H. reflexivity.
Qed.

Lemma GetAPIServerEndpoint_first_master_witness :
  GetAPIServerEndpoint (fun a => a)
    (Some (sample_input ["10.0.0.1"; "10.0.0.2"; "10.0.0.3"] "")) "6443"
  = Ok "10.0.0.1:6443".
Proof.
  apply (GetAPIServerEndpoint_first_master (fun a => a)
           (sample_input ["10.0.0.1"; "10.0.0.2"; "10.0.0.3"] "")
           "10.0.0.1" ["10.0.0.2"; "10.0.0.3"] "6443");
    [reflexivity|discriminate|reflexivity|reflexivity].
Defined.

(** ** Formats of the generated secrets *)

Example sha256_abc :
  hex.EncodeToString (sha256.Sum256 (list_byte_of_string "abc"))
  = "ba7816bf8f01cfea414140de5dae2223b00361a396177a9cb410ff61f20015ad".
Proof. vm_compute. reflexivity. Qed.

Example sha256_constants :
  nth 0 sha256._K 0 = 0x428a2f98 /\ nth 63 sha256._K 0 = 0xc67178f2 /\
  sha256.h0 sha256.init = 0x6a09e667 /\ sha256.h7 sha256.init = 0x5be0cd19.
Proof. repeat split. Qed.

Example base64_foobar :
  map (fun s => base64.EncodeToString (list_byte_of_string s))
      ["f"; "fo"; "foo"; "foob"; "fooba"; "foobar"]
  = ["Zg=="; "Zm8="; "Zm9v"; "Zm9vYg=="; "Zm9vYmE="; "Zm9vYmFy"].
Proof. vm_compute. reflexivity. Qed.

Lemma chars_append a b : chars (String.append a b) = chars a ++ chars b.
Proof.
  induction a as [|c a IH]; [reflexivity|].
  change (String.append (String c a) b) with (String c (String.append a b)).
  simpl. rewrite IH. reflexivity.
Qed.

Lemma Z_of_byte_range b : 0 <= Z_of_byte b < 256.
Proof.
  unfold Z_of_byte. pose proof (Byte.to_N_bounded b) as H. lia.
Qed.

Lemma length_bytes_of_word w : length (sha256.bytes_of_word w) = 4%nat.
Proof. reflexivity. Qed.

Lemma length_Sum256 data : length (sha256.Sum256 data) = 32%nat.
Proof.
  unfold sha256.Sum256. cbv zeta.
  rewrite !length_app, !length_bytes_of_word. reflexivity.
Qed.

Lemma forallb_In {A} (f : A -> bool) l x :
  forallb f l = true -> In x l -> f x = true.
Proof. intros H Hin. rewrite List.forallb_forall in H. auto. Qed.

Lemma hex_Encode_spec src :
  length (hex.Encode src) = (2 * length src)%nat /\
  forallb lower_hex (hex.Encode src) = true.
Proof.
  assert (Hc : forall i, 0 <= i < 16 -> lower_hex (index hex.hextable i) = true).
  { intros i Hi.
    apply (forallb_In lower_hex (chars hex.hextable)); [reflexivity|].
    apply index_In. simpl. lia. }
  induction src as [|v src [IHl IHf]]; [split; reflexivity|].
  pose proof (Z_of_byte_range v) as Hv.
  cbn [hex.Encode length forallb]. split; [lia|].
  rewrite IHf, !Hc; [reflexivity| |].
  - change 0x0f with (Z.ones 4). rewrite Z.land_ones by lia.
    apply Z.mod_pos_bound. lia.
  - rewrite Z.shiftr_div_pow2 by lia. change (2 ^ 4) with 16.
    split; [apply Z.div_pos; lia|apply Z.div_lt_upper_bound; lia].
Qed.

Lemma tokenChar_alnum b : lower_alnum (tokenChar b) = true.
Proof.
  apply (forallb_In lower_alnum (chars validBootstrapTokenChars));
    [reflexivity|apply tokenChar_In].
Qed.

Lemma randBytes_Ok n src tok src' :
  randBytes n src = Ok (tok, src') ->
  length (chars tok) = Z.to_nat n /\ forallb lower_alnum (chars tok) = true.
Proof.
  intros H.
  destruct (proj1 (randBytes_rejection_sampling_aux n src) _ _ H)
    as (Hlen & _ & Hch).
  rewrite length_chars. split; [lia|].
  rewrite Hch. apply List.forallb_forall. intros c Hc.
  apply in_map_iff in Hc as (b & <- & _). apply tokenChar_alnum.
Qed.

Lemma enc_char val shift : base64_char (base64.enc val shift) = true.
Proof.
  unfold base64_char. apply orb_true_iff. left.
  apply existsb_exists. exists (base64.enc val shift).
  split; [|apply Ascii.eqb_refl].
  apply index_In. change 0x3F with (Z.ones 6).
  rewrite Z.land_ones by lia. apply Z.mod_pos_bound. reflexivity.
Qed.

Lemma base64_Encode_spec l :
  length (base64.Encode l) = (4 * ((length l + 2) / 3))%nat /\
  forallb base64_char (base64.Encode l) = true.
Proof.
  assert (H : forall n (l : list byte), (length l < n)%nat ->
            length (base64.Encode l) = (4 * ((length l + 2) / 3))%nat /\
            forallb base64_char (base64.Encode l) = true).
  { clear l. induction n as [|n IH]; intros l Hl; [lia|].
    destruct l as [|a [|b [|c l]]]; try (split; reflexivity).
    - cbn [base64.Encode forallb length]. rewrite !enc_char. auto.
    - cbn [base64.Encode forallb length]. rewrite !enc_char. auto.
    - destruct (IH l) as [IHl IHf]; [simpl in Hl; lia|].
      cbn [base64.Encode forallb length]. rewrite !enc_char, IHf, IHl.
      split; [|reflexivity].
      replace (S (S (S (length l))) + 2)%nat with (length l + 2 + 1 * 3)%nat
        by lia.
      rewrite Nat.div_add by lia. lia. }
  apply (H (S (length l))). lia.
Qed.

Lemma ReadFull_Ok n src bs src' :
  rand.ReadFull n src = Ok (bs, src') ->
  bs = firstn n (rand.avail src) /\ length bs = n.
Proof.
  unfold rand.ReadFull, rand.Read.
  destruct (Nat.ltb_spec (length (rand.avail src)) n) as [Hlt|Hge];
    [discriminate|].
  intros H. injection H as <- _. split; [reflexivity|].
  rewrite length_firstn. lia.
Qed.

Lemma genToken_format src tok src' :
  genToken 6 16 src = Ok (tok, src') -> token_format tok = true.
Proof.
  unfold genToken. intros H. bind_inv H. injection H as <- _.
  apply randBytes_Ok in Hstep as [Hl0 Hf0].
  apply randBytes_Ok in Hstep0 as [Hl1 Hf1].
  unfold token_format. cbv zeta. rewrite !chars_append.
  change (chars ".") with ["."%char].
  remember (chars s) as t0. remember (chars s0) as t1.
  change (Z.to_nat 6) with 6%nat in Hl0.
  change (Z.to_nat 16) with 16%nat in Hl1.
  clear Heqt0 Heqt1.
  do 6 (destruct t0 as [|? t0]; [discriminate|]).
  destruct t0; [|discriminate].
  simpl in Hf0 |- *. rewrite Hl1, Hf0.
  change (skipn 0 t1) with t1. rewrite Hf1. reflexivity.
Qed.

Lemma generateCertificateKey_format src key src' :
  generateCertificateKey src = Ok (key, src') ->
  String.length key = 64%nat /\ forallb lower_hex (chars key) = true /\
  exists random src1,
    randBytes 32 src = Ok (random, src1) /\ String.length random = 32%nat /\
    key = hex.EncodeToString (sha256.Sum256 (list_byte_of_string random)).
Proof.
  unfold generateCertificateKey. intros H. bind_inv H. injection H as <- <-.
  unfold hex.EncodeToString.
  rewrite <- length_chars, chars_string_of_chars.
  destruct (hex_Encode_spec (sha256.Sum256 (list_byte_of_string s))) as [Hl Hf].
  rewrite Hl, length_Sum256. split; [reflexivity|]. split; [exact Hf|].
  eexists _, _. split; [exact Hstep|]. split; [|reflexivity].
  apply randBytes_Ok in Hstep as [Hlen _]. rewrite <- length_chars. exact Hlen.
Qed.

Lemma CreateEncryptionToken_format src secret src' :
  cis.CreateEncryptionToken src = Ok (secret, src') ->
  String.length secret = 44%nat /\
  forallb base64_char (chars secret) = true /\
  exists bs, bs = firstn 32 (rand.avail src) /\ length bs = 32%nat /\
             secret = base64.EncodeToString bs.
Proof.
  unfold cis.CreateEncryptionToken. intros H. bind_inv H.
  injection H as <- _. apply ReadFull_Ok in Hstep as [Hbs Hlen].
  unfold base64.EncodeToString.
  rewrite <- length_chars, chars_string_of_chars.
  destruct (base64_Encode_spec l) as [Hl Hf]. rewrite Hl, Hlen.
  split; [reflexivity|]. split; [exact Hf|]. exists l. auto.
Qed.

Lemma CreateEncryptionToken_enough src :
  (32 <= length (rand.avail src))%nat ->
  cis.CreateEncryptionToken src
  = Ok (base64.EncodeToString (firstn 32 (rand.avail src)),
        rand.mkReader (skipn 32 (rand.avail src)) (rand.failure src)).
Proof.
  intros H. unfold cis.CreateEncryptionToken, rand.ReadFull, rand.Read.
  destruct (Nat.ltb_spec (length (rand.avail src)) 32); [lia|]. reflexivity.
Qed.

(** C7. Every bootstrap token and trust-service token that is generated
    matches [^[0-9a-z]{6}\.[0-9a-z]{16}$]; every certificate key is 64
    lowercase hexadecimal characters, the hex encoding of the SHA-256 digest
    of 32 random bytes; every encryption secret is the standard base64
    encoding (44 characters) of 32 random bytes. The generators do return
    these secrets when the entropy source delivers enough bytes. *)
Theorem generated_secret_formats (src : rand.Reader) :
  (forall tok src', genToken 6 16 src = Ok (tok, src') ->
     token_format tok = true) /\
  (forall key src', generateCertificateKey src = Ok (key, src') ->
     String.length key = 64%nat /\ forallb lower_hex (chars key) = true /\
     exists random src1,
       randBytes 32 src = Ok (random, src1) /\
       String.length random = 32%nat /\
       key = hex.EncodeToString (sha256.Sum256 (list_byte_of_string random))) /\
  (forall secret src', cis.CreateEncryptionToken src = Ok (secret, src') ->
     String.length secret = 44%nat /\
     forallb base64_char (chars secret) = true /\
     exists bs, bs = firstn 32 (rand.avail src) /\ length bs = 32%nat /\
                secret = base64.EncodeToString bs) /\
  (forall newCertificates clustername masterIPs kubernetesVersion inp src',
     NewInput newCertificates clustername masterIPs kubernetesVersion src
     = Ok (inp, src') ->
     exists kubeadmTokens trustdInfo,
       KubeadmTokens_ inp = Some kubeadmTokens /\
       TrustdInfo_ inp = Some trustdInfo /\
       token_format (BootstrapToken kubeadmTokens) = true /\
       token_format (Token trustdInfo) = true /\
       String.length (CertificateKey kubeadmTokens) = 64%nat /\
       forallb lower_hex (chars (CertificateKey kubeadmTokens)) = true /\
       String.length (AESCBCEncryptionSecret kubeadmTokens) = 44%nat /\
       forallb base64_char (chars (AESCBCEncryptionSecret kubeadmTokens)) = true) /\
  ((32 <= length (rand.avail src))%nat ->
     cis.CreateEncryptionToken src
     = Ok (base64.EncodeToString (firstn 32 (rand.avail src)),
           rand.mkReader (skipn 32 (rand.avail src)) (rand.failure src))) /\
  ((32 <= length (List.filter accepted (rand.avail src)))%nat ->
     exists key src', generateCertificateKey src = Ok (key, src')) /\
  ((6 <= length (List.filter accepted (rand.avail src)))%nat ->
     exists t0 src1,
       randBytes 6 src = Ok (t0, src1) /\
       ((16 <= length (List.filter accepted (rand.avail src1)))%nat ->
        exists t1 src2,
          randBytes 16 src1 = Ok (t1, src2) /\
          genToken 6 16 src
          = Ok (String.append t0 (String.append "." t1), src2))).
Proof.
  split; [|split; [|split; [|split; [|split; [|split]]]]].
  - intros tok src'. apply genToken_format.
  - intros key src'. apply generateCertificateKey_format.
  - intros secret src'. apply CreateEncryptionToken_format.
  - intros newCertificates clustername masterIPs kubernetesVersion inp src' H.
    unfold NewInput in H.
    destruct (networkDefaults masterIPs) as [[loopbackIP podNet] serviceNet].
    bind_inv H. injection H as <- _. cbn.
    eexists _, _. split; [reflexivity|]. split; [reflexivity|]. cbn.
    apply genToken_format in Hstep.
    apply genToken_format in Hstep2.
    apply generateCertificateKey_format in Hstep0 as (? & ? & _).
    apply CreateEncryptionToken_format in Hstep1 as (? & ? & _).
    auto 10.
  - apply CreateEncryptionToken_enough.
  - intros H.
    destruct (proj2 (randBytes_rejection_sampling_aux 32 src))
      as (key & src' & Hk); [cbn zeta; lia|].
    unfold generateCertificateKey. rewrite Hk. cbn [bind]. eauto.
  - intros H.
    destruct (proj2 (randBytes_rejection_sampling_aux 6 src))
      as (t0 & src1 & H0); [cbn zeta; lia|].
    exists t0, src1. split; [exact H0|]. intros H'.
    destruct (proj2 (randBytes_rejection_sampling_aux 16 src1))
      as (t1 & src2 & H1); [cbn zeta; lia|].
    exists t1, src2. split; [exact H1|].
    unfold genToken. rewrite H0. cbn [bind]. rewrite H1. reflexivity.
Qed.

Lemma generated_secret_formats_witness :
  token_format "012345.ghijklmnopqrstuv" = true /\
  String.length
    "79671c6ca8ac072b26e9d43193d440322bfec800c7e8ece6b81266b886f85552"
  = 64%nat /\
  (String.length "cHFyc3R1dnd4eXp7fH1+f4CBgoOEhYaHiImKi4yNjo8=" = 44%nat /\
   forallb base64_char (chars "cHFyc3R1dnd4eXp7fH1+f4CBgoOEhYaHiImKi4yNjo8=")
   = true) /\
  (exists kubeadmTokens trustdInfo,
     Some {| BootstrapToken := "012345.ghijklmnopqrstuv";
             AESCBCEncryptionSecret :=
               "cHFyc3R1dnd4eXp7fH1+f4CBgoOEhYaHiImKi4yNjo8=";
             CertificateKey :=
               "79671c6ca8ac072b26e9d43193d440322bfec800c7e8ece6b81266b886f85552" |}
     = Some kubeadmTokens /\
     Some {| Token := "012345.ghijklmnopqrstuv" |} = Some trustdInfo /\
     token_format (BootstrapToken kubeadmTokens) = true /\
     token_format (Token trustdInfo) = true /\
     String.length (CertificateKey kubeadmTokens) = 64%nat /\
     forallb lower_hex (chars (CertificateKey kubeadmTokens)) = true /\
     String.length (AESCBCEncryptionSecret kubeadmTokens) = 44%nat /\
     forallb base64_char (chars (AESCBCEncryptionSecret kubeadmTokens)) = true) /\
  cis.CreateEncryptionToken counting_source
  = Ok ("AAECAwQFBgcICQoLDA0ODxAREhMUFRYXGBkaGxwdHh8=",
        rand.mkReader (skipn 32 (rand.avail counting_source))
                      (errorString "entropy")) /\
  (exists key src', generateCertificateKey counting_source = Ok (key, src')) /\
  (exists tok src', genToken 6 16 counting_source = Ok (tok, src')).
Proof.
  pose (src1 := rand.mkReader (skipn 48 (rand.avail counting_source))
                              (errorString "entropy")).
  pose (src2 := rand.mkReader (skipn 112 (rand.avail counting_source))
                              (errorString "entropy")).
  pose (src3 := rand.mkReader (skipn 144 (rand.avail counting_source))
                              (errorString "entropy")).
  pose (src4 := rand.mkReader (skipn 192 (rand.avail counting_source))
                              (errorString "entropy")).
  split; [|split; [|split; [|split; [|split; [|split]]]]].
  - apply (proj1 (generated_secret_formats counting_source)
             "012345.ghijklmnopqrstuv" src1).
    vm_compute. reflexivity.
  - apply (proj1 (proj2 (generated_secret_formats src1))
             "79671c6ca8ac072b26e9d43193d440322bfec800c7e8ece6b81266b886f85552"
             src2).
    vm_compute. reflexivity.
  - destruct (proj1 (proj2 (proj2 (generated_secret_formats src2)))
                "cHFyc3R1dnd4eXp7fH1+f4CBgoOEhYaHiImKi4yNjo8=" src3)
      as (Hlen & Hchars & _); [vm_compute; reflexivity|].
    split; [exact Hlen|exact Hchars].
  - apply (proj1 (proj2 (proj2 (proj2
             (generated_secret_formats counting_source))))
             noCertificates "c" ["10.0.0.1"; "fc00::1"] "1.16"
             {| Certs_ := Some {| Admin := None; Etcd := None;
                                  K8s := None; OS := None |};
                ControlPlaneEndpoint := "";
                MasterIPs := ["10.0.0.1"; "fc00::1"];
                AdditionalSubjectAltNames := [];
                ClusterName := "c";
                ServiceDomain := "cluster.local";
                PodNet := ["fc00:db8:10::/56"];
                ServiceNet := ["fc00:db8:20::/112"];
                KubernetesVersion := "1.16";
                KubeadmTokens_ :=
                  Some {| BootstrapToken := "012345.ghijklmnopqrstuv";
                          AESCBCEncryptionSecret :=
                            "cHFyc3R1dnd4eXp7fH1+f4CBgoOEhYaHiImKi4yNjo8=";
                          CertificateKey :=
                            "79671c6ca8ac072b26e9d43193d440322bfec800c7e8ece6b81266b886f85552" |};
                TrustdInfo_ := Some {| Token := "012345.ghijklmnopqrstuv" |};
                ExternalEtcd := false |}
             src4).
    vm_compute. reflexivity.
  - apply (proj1 (proj2 (proj2 (proj2 (proj2
             (generated_secret_formats counting_source)))))).
    vm_compute. lia.
  - apply (proj1 (proj2 (proj2 (proj2 (proj2 (proj2
             (generated_secret_formats counting_source))))))).
    vm_compute. lia.
  - destruct (proj2 (proj2 (proj2 (proj2 (proj2 (proj2
                (generated_secret_formats counting_source))))))
             ltac:(vm_compute; lia))
      as (t0 & s1 & H0 & H1).
    assert (Hs1 : s1 = rand.mkReader (skipn 16 (rand.avail counting_source))
                                     (errorString "entropy")).
    { assert (E : randBytes 6 counting_source
                  = Ok ("012345",
                        rand.mkReader (skipn 16 (rand.avail counting_source))
                                      (errorString "entropy")))
        by (vm_compute; reflexivity).
      rewrite E in H0. injection H0 as _ <-. reflexivity. }
    destruct H1 as (t1 & s2 & _ & H2); [rewrite Hs1; vm_compute; lia|].
    eauto.
Defined.

(** ** The compliance artifacts on disk *)

Lemma WriteFile_absent name data perm fs :
  os.files fs !! name = None ->
  ioutil.WriteFile name data perm fs
  = (None, os.mkFS (<[name := os.mkFile data perm]> (os.files fs))
                   (os.privileged fs)).
Proof. unfold ioutil.WriteFile. intros ->. reflexivity. Qed.

Lemma WriteFile_present name data perm fs f :
  os.files fs !! name = Some f ->
  ioutil.WriteFile name data perm fs
  = if os.writable f fs
    then (None, os.mkFS (<[name := os.mkFile data (os.mode f)]> (os.files fs))
                        (os.privileged fs))
    else (Some (os.ErrPermission name), fs).
Proof. unfold ioutil.WriteFile. intros ->. reflexivity. Qed.

Lemma WriteFile_same name perm fs f :
  os.files fs !! name = Some f ->
  snd (ioutil.WriteFile name (os.contents f) perm fs) = fs.
Proof.
  intros H. rewrite (WriteFile_present _ _ _ _ _ H).
  destruct (os.writable f fs); [|reflexivity].
  destruct fs as [files priv], f as [c m]. simpl in *.
  f_equal. apply insert_id. exact H.
Qed.

Lemma WriteEncryptionConfig_present path secret fs f :
  os.files fs !! path = Some f ->
  cis.WriteEncryptionConfigToDisk path secret fs = (None, fs).
Proof.
  unfold cis.WriteEncryptionConfigToDisk, os.Stat_IsNotExist.
  intros ->. reflexivity.
Qed.

Lemma WriteEncryptionConfig_absent path secret fs :
  os.files fs !! path = None ->
  cis.WriteEncryptionConfigToDisk path secret fs
  = (None,
     os.mkFS (<[path := os.mkFile (cis.Execute cis.encryptionConfig secret)
                                  cis.perm_0400]> (os.files fs))
             (os.privileged fs)).
Proof.
  intros H. unfold cis.WriteEncryptionConfigToDisk, os.Stat_IsNotExist.
  rewrite H, (WriteFile_absent _ _ _ _ H). reflexivity.
Qed.

Lemma Enforce_first A E secret fs :
  A <> E -> os.files fs !! A = None -> os.files fs !! E = None ->
  cis.EnforceCommonMasterRequirements A E secret fs
  = (None, bootstrapped A E secret fs).
Proof.
  intros Hne HA HE. unfold cis.EnforceCommonMasterRequirements,
    cis.WriteAuditPolicyToDisk.
  rewrite (WriteFile_absent _ _ _ _ HA).
  rewrite WriteEncryptionConfig_absent
    by (simpl; rewrite lookup_insert_ne by exact Hne; exact HE).
  reflexivity.
Qed.

Lemma Enforce_again A E secret secret' fs :
  A <> E ->
  cis.EnforceCommonMasterRequirements A E secret' (bootstrapped A E secret fs)
  = (if os.privileged fs then None else Some (os.ErrPermission A),
     bootstrapped A E secret fs).
Proof.
  intros Hne.
  assert (HA : os.files (bootstrapped A E secret fs) !! A
               = Some (os.mkFile cis.auditPolicy cis.perm_0400)).
  { simpl. rewrite lookup_insert_ne by congruence. apply lookup_insert_eq. }
  assert (HE : os.files (bootstrapped A E secret fs) !! E
               = Some (os.mkFile (cis.Execute cis.encryptionConfig secret)
                                 cis.perm_0400)).
  { simpl. apply lookup_insert_eq. }
  unfold cis.EnforceCommonMasterRequirements, cis.WriteAuditPolicyToDisk.
  rewrite (WriteFile_present _ _ _ _ _ HA). unfold os.writable.
  change (os.privileged (bootstrapped A E secret fs)) with (os.privileged fs).
  change (Z.testbit (os.mode (os.mkFile cis.auditPolicy cis.perm_0400)) 7)
    with false.
  destruct (os.privileged fs) eqn:Hp; cbn [orb]; [|reflexivity].
  assert (Hsame : os.mkFS
            (<[A := os.mkFile cis.auditPolicy
                      (os.mode (os.mkFile cis.auditPolicy cis.perm_0400))]>
               (os.files (bootstrapped A E secret fs)))
            (os.privileged (bootstrapped A E secret fs))
          = bootstrapped A E secret fs).
  { cbn [os.mode]. rewrite (insert_id _ _ _ HA). simpl. rewrite Hp.
    unfold bootstrapped. rewrite Hp. reflexivity. }
  change (os.privileged fs) with (os.privileged (bootstrapped A E secret fs))
    in Hp.
  rewrite <- Hp at 1. rewrite Hsame.
  rewrite (WriteEncryptionConfig_present _ _ _ _ HE). reflexivity.
Qed.

Lemma WriteFile_frame name data perm fs p :
  p <> name ->
  os.files (snd (ioutil.WriteFile name data perm fs)) !! p = os.files fs !! p.
Proof.
  intros Hp. unfold ioutil.WriteFile.
  destruct (os.files fs !! name) as [f|]; [destruct (os.writable f fs)|];
    simpl; try reflexivity; apply lookup_insert_ne; congruence.
Qed.

Lemma WriteEncryptionConfig_frame path secret fs p :
  p <> path ->
  os.files (snd (cis.WriteEncryptionConfigToDisk path secret fs)) !! p
  = os.files fs !! p.
Proof.
  intros Hp. unfold cis.WriteEncryptionConfigToDisk.
  destruct (os.Stat_IsNotExist path fs); [|reflexivity].
  pose proof (WriteFile_frame path (cis.Execute cis.encryptionConfig secret)
                cis.perm_0400 fs p Hp) as H.
  destruct (ioutil.WriteFile path _ cis.perm_0400 fs) as [[e|] fs']; exact H.
Qed.

Lemma Enforce_frame A E secret fs p :
  p <> A -> p <> E ->
  os.files (snd (cis.EnforceCommonMasterRequirements A E secret fs)) !! p
  = os.files fs !! p.
Proof.
  intros HA HE. unfold cis.EnforceCommonMasterRequirements,
    cis.WriteAuditPolicyToDisk.
  pose proof (WriteFile_frame A cis.auditPolicy cis.perm_0400 fs p HA) as H1.
  destruct (ioutil.WriteFile A cis.auditPolicy cis.perm_0400 fs)
    as [[e|] fs1]; [exact H1|].
  pose proof (WriteEncryptionConfig_frame E secret fs1 p HE) as H2.
  destruct (cis.WriteEncryptionConfigToDisk E secret fs1) as [[e|] fs2];
    simpl in *; congruence.
Qed.

(** C5, as the code has it. The encryption configuration is written to its
    path with permissions 0400 only if the file does not exist, and a call
    that finds it leaves the file system as it is. The audit policy is
    written on every call, without a check: the file is created with 0400
    when it is missing, and an existing file that may be written gets the
    static policy as its contents. A first bootstrap that finds neither
    file creates both, a later call leaves both as they are, and no call
    touches another path. *)
Theorem compliance_artifacts_on_disk
    (AuditPolicyPath EncryptionConfigPath secret : string) (fs : os.FS) :
  (os.files fs !! EncryptionConfigPath = None ->
     cis.WriteEncryptionConfigToDisk EncryptionConfigPath secret fs
     = (None,
        os.mkFS (<[EncryptionConfigPath :=
                     os.mkFile (cis.Execute cis.encryptionConfig secret)
                               cis.perm_0400]> (os.files fs))
                (os.privileged fs))) /\
  (forall f, os.files fs !! EncryptionConfigPath = Some f ->
     cis.WriteEncryptionConfigToDisk EncryptionConfigPath secret fs
     = (None, fs)) /\
  (os.files fs !! AuditPolicyPath = None ->
     cis.WriteAuditPolicyToDisk AuditPolicyPath fs
     = (None,
        os.mkFS (<[AuditPolicyPath :=
                     os.mkFile cis.auditPolicy cis.perm_0400]> (os.files fs))
                (os.privileged fs))) /\
  (forall f, os.files fs !! AuditPolicyPath = Some f ->
     os.writable f fs = true ->
     cis.WriteAuditPolicyToDisk AuditPolicyPath fs
     = (None,
        os.mkFS (<[AuditPolicyPath :=
                     os.mkFile cis.auditPolicy (os.mode f)]> (os.files fs))
                (os.privileged fs))) /\
  (AuditPolicyPath <> EncryptionConfigPath ->
   os.files fs !! AuditPolicyPath = None ->
   os.files fs !! EncryptionConfigPath = None ->
     cis.EnforceCommonMasterRequirements AuditPolicyPath EncryptionConfigPath
       secret fs
     = (None, bootstrapped AuditPolicyPath EncryptionConfigPath secret fs) /\
     forall secret',
       snd (cis.EnforceCommonMasterRequirements AuditPolicyPath
              EncryptionConfigPath secret'
              (bootstrapped AuditPolicyPath EncryptionConfigPath secret fs))
       = bootstrapped AuditPolicyPath EncryptionConfigPath secret fs) /\
  (forall p, p <> AuditPolicyPath -> p <> EncryptionConfigPath ->
     os.files (snd (cis.EnforceCommonMasterRequirements AuditPolicyPath
                      EncryptionConfigPath secret fs)) !! p
     = os.files fs !! p).
Proof.
  split; [apply WriteEncryptionConfig_absent|].
  split; [intros f; apply WriteEncryptionConfig_present|].
  split; [apply WriteFile_absent|].
  split.
  { intros f Hf Hw. unfold cis.WriteAuditPolicyToDisk.
    rewrite (WriteFile_present _ _ _ _ _ Hf), Hw. reflexivity. }
  split.
  { intros Hne HA HE. split; [apply Enforce_first; assumption|].
    intros secret'. rewrite Enforce_again by exact Hne. reflexivity. }
  intros p. apply Enforce_frame.
Qed.

Lemma compliance_artifacts_on_disk_witness :
  cis.EnforceCommonMasterRequirements sample_AuditPolicyPath
    sample_EncryptionConfigPath "c2VjcmV0" fresh_fs
  = (None, bootstrapped sample_AuditPolicyPath sample_EncryptionConfigPath
             "c2VjcmV0" fresh_fs) /\
  cis.WriteAuditPolicyToDisk sample_AuditPolicyPath stale_policy_fs
  = (None,
     os.mkFS (<[sample_AuditPolicyPath :=
                  os.mkFile cis.auditPolicy cis.perm_0400]>
                (os.files stale_policy_fs)) true).
Proof.
  split.
  - apply (compliance_artifacts_on_disk sample_AuditPolicyPath
             sample_EncryptionConfigPath "c2VjcmV0" fresh_fs);
      [discriminate|reflexivity|reflexivity].
  - apply (proj1 (proj2 (proj2 (proj2
             (compliance_artifacts_on_disk sample_AuditPolicyPath
                sample_EncryptionConfigPath "c2VjcmV0" stale_policy_fs))))
             (os.mkFile "rules: []" cis.perm_0400));
      [apply lookup_singleton_eq|reflexivity].
Defined.

(** C5, as stated, fails for the audit policy: a call that finds the file
    holding another policy replaces its contents. *)
Lemma audit_policy_overwritten_counterexample :
  os.files stale_policy_fs !! sample_AuditPolicyPath
  = Some (os.mkFile "rules: []" cis.perm_0400) /\
  (exists fs',
     cis.EnforceCommonMasterRequirements sample_AuditPolicyPath
       sample_EncryptionConfigPath "c2VjcmV0" stale_policy_fs = (None, fs') /\
     os.files fs' !! sample_AuditPolicyPath
     = Some (os.mkFile cis.auditPolicy cis.perm_0400)) /\
  cis.auditPolicy <> "rules: []" /\
  ~ (forall path fs f,
       os.files fs !! path = Some f ->
       os.files (snd (cis.WriteAuditPolicyToDisk path fs)) !! path = Some f).
Proof.
  assert (H0 : os.files stale_policy_fs !! sample_AuditPolicyPath
               = Some (os.mkFile "rules: []" cis.perm_0400))
    by apply lookup_singleton_eq.
  split; [exact H0|]. split; [|split].
  - eexists. split; [vm_compute; reflexivity|]. vm_compute. reflexivity.
  - discriminate.
  - intros H. specialize (H _ _ _ H0).
    unfold cis.WriteAuditPolicyToDisk in H.
    rewrite (WriteFile_present _ _ _ _ _ H0) in H. simpl in H.
    rewrite lookup_insert_eq in H. discriminate.
Qed.

(** ** Endpoint failover *)

Section Failover.

Variable ClientConn : Type.
Variable NewConnection : string -> Z -> gen.Credentials -> ClientConn + string.
Variable port : Z.
Variable creds : gen.Credentials.

Local Abbreviation connect := (gen.connect ClientConn NewConnection).

Local Abbreviation failed := (dial_failed NewConnection port creds).

(** Endpoints whose dial fails are passed one after the other, each
    leaving its error in [multiError]. *)
Lemma connect_failed pre : forall errs rest st,
  Forall2 failed pre errs ->
  exists st',
    connect (pre ++ rest) port creds st = connect rest port creds st' /\
    gen.dialed st' = gen.dialed st ++ pre /\
    gen.multiError st'
    = match pre with
      | [] => gen.multiError st
      | _ => Some (errors_of (gen.multiError st) ++ errs)
      end.
Proof.
  induction pre as [|ep pre IH]; intros errs rest st H.
  - apply Forall2_nil_inv_l in H as ->. exists st.
    rewrite app_nil_r. auto.
  - apply Forall2_cons_inv_l in H as (x & errs' & (msg & Hd & ->) & H & ->).
    cbn [app gen.connect]. rewrite Hd. cbn [gen.dialed gen.multiError].
    edestruct (IH errs' rest) as (st' & Hc & Hdl & Herr); [exact H|].
    exists st'. split; [exact Hc|]. split.
    + rewrite Hdl. cbn [gen.dialed]. rewrite <- app_assoc. reflexivity.
    + rewrite Herr. cbn [gen.multiError multierror.Append].
      fold (errors_of (gen.multiError st)).
      destruct pre.
      * apply Forall2_nil_inv_l in H as ->. reflexivity.
      * cbn [errors_of]. rewrite <- app_assoc. reflexivity.
Qed.

(** Every list of endpoints either has a first endpoint that accepts the
    connection, or consists of endpoints whose dial fails. *)
Lemma first_accepting endpoints :
  (exists pre errs ep conn post,
     endpoints = pre ++ ep :: post /\ Forall2 failed pre errs /\
     NewConnection ep port creds = inl conn) \/
  (exists errs, Forall2 failed endpoints errs).
Proof.
  induction endpoints as [|ep endpoints IH]; [right; exists []; constructor|].
  destruct (NewConnection ep port creds) as [conn|msg] eqn:Hd.
  - left. exists [], [], ep, conn, endpoints. repeat split; [constructor|exact Hd].
  - assert (Hf : failed ep (errorString msg)) by (exists msg; auto).
    destruct IH as [(pre & errs & ep' & conn & post & -> & Hpre & Hc)|[errs H]].
    + left. exists (ep :: pre), (errorString msg :: errs), ep', conn, post.
      repeat split; [constructor; assumption|exact Hc].
    + right. exists (errorString msg :: errs). constructor; assumption.
Qed.

Lemma failed_inj ep x y : failed ep x -> failed ep y -> x = y.
Proof. intros (m & H1 & ->) (m' & H2 & ->). congruence. Qed.

Lemma Forall2_failed_inj l : forall xs ys,
  Forall2 failed l xs -> Forall2 failed l ys -> xs = ys.
Proof.
  induction l as [|ep l IH]; intros xs ys Hx Hy.
  - apply Forall2_nil_inv_l in Hx, Hy. congruence.
  - apply Forall2_cons_inv_l in Hx as (x & xs' & Hx & Hxs & ->).
    apply Forall2_cons_inv_l in Hy as (y & ys' & Hy & Hys & ->).
    f_equal; [eapply failed_inj|apply IH]; eassumption.
Qed.

End Failover.

Arguments first_accepting {ClientConn} NewConnection port creds endpoints.
Arguments connect_failed {ClientConn} NewConnection port creds pre errs rest st.
Arguments Forall2_failed_inj {ClientConn} NewConnection port creds l xs ys.

(** What [NewRemoteGenerator] does on a list with a first accepting
    endpoint, and on a non-empty list without one. *)
Lemma NewRemoteGenerator_run_accept {ClientConn}
    (NewConnection : string -> Z -> gen.Credentials -> ClientConn + string)
    token port pre errs ep conn post :
  Forall2 (dial_failed NewConnection port (gen.NewTokenCredentials token)) pre errs ->
  NewConnection ep port (gen.NewTokenCredentials token) = inl conn ->
  gen.NewRemoteGenerator_run ClientConn NewConnection token
    (pre ++ ep :: post) port
  = (Some {| gen.client := Some (gen.NewSecurityClient ClientConn conn) |},
     None,
     {| gen.dialed := pre ++ [ep];
        gen.multiError := match pre with [] => None | _ => Some errs end |}).
Proof.
  intros Hpre Hc. unfold gen.NewRemoteGenerator_run.
  rewrite length_app. cbn [length].
  destruct (Z.eqb_spec (Z.of_nat (length pre + S (length post))) 0); [lia|].
  destruct (connect_failed NewConnection port _ pre errs (ep :: post)
              {| gen.dialed := []; gen.multiError := None |} Hpre)
    as (st' & -> & Hd & Hm).
  cbn [gen.connect]. rewrite Hc, Hd, Hm. reflexivity.
Qed.

Lemma NewRemoteGenerator_run_all_failed {ClientConn}
    (NewConnection : string -> Z -> gen.Credentials -> ClientConn + string)
    token port endpoints errs :
  endpoints <> [] ->
  Forall2 (dial_failed NewConnection port (gen.NewTokenCredentials token))
          endpoints errs ->
  gen.NewRemoteGenerator_run ClientConn NewConnection token endpoints port
  = (None, Some (multierror_Error errs),
     {| gen.dialed := endpoints; gen.multiError := Some errs |}).
Proof.
  intros Hne Hall. unfold gen.NewRemoteGenerator_run.
  destruct endpoints as [|ep0 eps]; [contradiction|].
  remember (ep0 :: eps) as endpoints.
  destruct (Z.eqb_spec (Z.of_nat (length endpoints)) 0);
    [subst; simpl in *; lia|].
  destruct (connect_failed NewConnection port _ endpoints errs []
              {| gen.dialed := []; gen.multiError := None |} Hall)
    as (st' & Hc & Hd & Hm).
  rewrite app_nil_r in Hc. rewrite Hc. cbn [gen.connect].
  subst endpoints. cbn in Hm, Hd. rewrite Hm.
  apply Forall2_cons_inv_l in Hall as (x & errs' & _ & _ & ->).
  destruct st' as [d m]. cbn in *. subst. reflexivity.
Qed.

(** C4. [NewRemoteGenerator] dials the endpoints one at a time in the order
    of the list, and stops at the first endpoint that accepts the
    connection, with the errors of the endpoints before it recorded in
    [multiError]; when every endpoint fails, it returns a multi-error with
    one entry per endpoint, the entries being the dial errors in the order
    of the endpoints. *)
Theorem NewRemoteGenerator_failover {ClientConn}
    (NewConnection : string -> Z -> gen.Credentials -> ClientConn + string)
    (token : string) (port : Z) (endpoints : list string) :
  let creds := gen.NewTokenCredentials token in
  let run :=
    gen.NewRemoteGenerator_run ClientConn NewConnection token endpoints port in
  (exists rest, endpoints = gen.dialed (snd run) ++ rest) /\
  (forall pre errs ep conn post,
     endpoints = pre ++ ep :: post ->
     Forall2 (dial_failed NewConnection port creds) pre errs ->
     NewConnection ep port creds = inl conn ->
     run = (Some {| gen.client := Some (gen.NewSecurityClient ClientConn conn) |},
            None,
            {| gen.dialed := pre ++ [ep];
               gen.multiError := match pre with [] => None | _ => Some errs end |})) /\
  (forall errs,
     endpoints <> [] ->
     Forall2 (dial_failed NewConnection port creds) endpoints errs ->
     run = (None, Some (multierror_Error errs),
            {| gen.dialed := endpoints; gen.multiError := Some errs |}) /\
     length errs = length endpoints).
Proof.
  intros creds run.
  assert (Hacc : forall pre errs ep conn post,
            endpoints = pre ++ ep :: post ->
            Forall2 (dial_failed NewConnection port creds) pre errs ->
            NewConnection ep port creds = inl conn ->
            run = (Some {| gen.client := Some (gen.NewSecurityClient ClientConn conn) |},
                   None,
                   {| gen.dialed := pre ++ [ep];
                      gen.multiError := match pre with [] => None | _ => Some errs end |})).
  { intros pre errs ep conn post -> Hpre Hc. subst run.
    apply NewRemoteGenerator_run_accept; assumption. }
  assert (Hall : forall errs,
            endpoints <> [] ->
            Forall2 (dial_failed NewConnection port creds) endpoints errs ->
            run = (None, Some (multierror_Error errs),
                   {| gen.dialed := endpoints; gen.multiError := Some errs |}) /\
            length errs = length endpoints).
  { intros errs Hne H. split.
    - subst run. apply NewRemoteGenerator_run_all_failed; assumption.
    - symmetry. eapply Forall2_length, H. }
  split; [|split; assumption].
  destruct (first_accepting NewConnection port creds endpoints)
    as [(pre & errs & ep & conn & post & He & Hpre & Hc)|[errs H]].
  - rewrite (Hacc _ _ _ _ _ He Hpre Hc). cbn. exists post.
    rewrite He, <- app_assoc. reflexivity.
  - destruct endpoints as [|ep0 eps] eqn:E.
    + exists []. reflexivity.
    + destruct (Hall errs) as [-> _]; [discriminate|exact H|].
      exists []. cbn. rewrite app_nil_r. reflexivity.
Qed.

Lemma NewRemoteGenerator_failover_witness :
  gen.NewRemoteGenerator_run string refusing_two "token"
    ["10.0.0.1"; "10.0.0.2"; "10.0.0.3"; "10.0.0.4"] 50001
  = (Some {| gen.client := Some (gen.NewSecurityClient string "10.0.0.3") |},
     None,
     {| gen.dialed := ["10.0.0.1"; "10.0.0.2"; "10.0.0.3"];
        gen.multiError :=
          Some [errorString "dial 10.0.0.1: connection refused";
                errorString "dial 10.0.0.2: connection refused"] |}) /\
  gen.NewRemoteGenerator_run string refusing_two "token"
    ["10.0.0.1"; "10.0.0.2"] 50001
  = (None,
     Some (multierror_Error
             [errorString "dial 10.0.0.1: connection refused";
              errorString "dial 10.0.0.2: connection refused"]),
     {| gen.dialed := ["10.0.0.1"; "10.0.0.2"];
        gen.multiError :=
          Some [errorString "dial 10.0.0.1: connection refused";
                errorString "dial 10.0.0.2: connection refused"] |}).
Proof.
  assert (H : Forall2 (dial_failed refusing_two 50001 (gen.NewTokenCredentials "token"))
                ["10.0.0.1"; "10.0.0.2"]
                [errorString "dial 10.0.0.1: connection refused";
                 errorString "dial 10.0.0.2: connection refused"]).
  { repeat constructor; eexists; split; reflexivity. }
  split.
  - apply (proj1 (proj2 (NewRemoteGenerator_failover refusing_two "token" 50001
                           ["10.0.0.1"; "10.0.0.2"; "10.0.0.3"; "10.0.0.4"]))
             ["10.0.0.1"; "10.0.0.2"] _ "10.0.0.3" "10.0.0.3" ["10.0.0.4"]);
      [reflexivity|exact H|reflexivity].
  - apply (proj2 (proj2 (NewRemoteGenerator_failover refusing_two "token" 50001
                           ["10.0.0.1"; "10.0.0.2"])));
      [discriminate|exact H].
Defined.

(** C10. Called with no endpoint, [NewRemoteGenerator] returns an error
    without dialing; a return without error carries a generator whose
    client is built on the connection of the first endpoint that accepted
    it, never a nil generator or a nil client. *)
Theorem NewRemoteGenerator_empty_or_client {ClientConn}
    (NewConnection : string -> Z -> gen.Credentials -> ClientConn + string)
    (token : string) (port : Z) :
  gen.NewRemoteGenerator_run ClientConn NewConnection token [] port
  = (None,
     Some (errorString "at least one root of trust endpoint is required"),
     {| gen.dialed := []; gen.multiError := None |}) /\
  (forall endpoints g,
     gen.NewRemoteGenerator ClientConn NewConnection token endpoints port
     = (g, None) ->
     exists pre errs ep conn post,
       endpoints = pre ++ ep :: post /\
       Forall2 (dial_failed NewConnection port (gen.NewTokenCredentials token))
               pre errs /\
       NewConnection ep port (gen.NewTokenCredentials token) = inl conn /\
       g = Some {| gen.client := Some (gen.NewSecurityClient ClientConn conn) |}).
Proof.
  split; [reflexivity|].
  intros endpoints g H. unfold gen.NewRemoteGenerator in H.
  destruct (first_accepting NewConnection port (gen.NewTokenCredentials token)
              endpoints)
    as [(pre & errs & ep & conn & post & He & Hpre & Hc)|[errs Hall]].
  - exists pre, errs, ep, conn, post. repeat split; try assumption.
    subst endpoints.
    rewrite (NewRemoteGenerator_run_accept _ _ _ _ _ _ _ _ Hpre Hc) in H.
    cbn in H. congruence.
  - destruct endpoints as [|ep0 eps]; [cbn in H; discriminate|].
    rewrite (NewRemoteGenerator_run_all_failed _ _ _ _ errs) in H;
      [cbn in H; discriminate|discriminate|exact Hall].
Qed.

Lemma NewRemoteGenerator_empty_or_client_witness :
  exists pre errs ep conn post,
    ["10.0.0.1"; "10.0.0.2"; "10.0.0.3"; "10.0.0.4"] = pre ++ ep :: post /\
    Forall2 (dial_failed refusing_two 50001 (gen.NewTokenCredentials "token"))
            pre errs /\
    refusing_two ep 50001 (gen.NewTokenCredentials "token") = inl conn /\
    Some {| gen.client := Some (gen.NewSecurityClient string "10.0.0.3") |}
    = Some {| gen.client := Some (gen.NewSecurityClient string conn) |}.
Proof.
  apply (proj2 (NewRemoteGenerator_empty_or_client refusing_two "token" 50001)
           ["10.0.0.1"; "10.0.0.2"; "10.0.0.3"; "10.0.0.4"]).
  reflexivity.
Defined.

(** ** Polling *)

(** The two ways out of the loop: a call that came back without error, or
    the timer; the timer case is never taken before the deadline. *)
Lemma poll_loop_exits fuel : forall w req now nextTick k r,
  gen.poll_loop fuel w req now nextTick k = Some r ->
  (exists j resp,
     gen.certificate w req j = inl resp /\
     gen.ca r = gen.Ca resp /\ gen.crt r = gen.Crt resp /\ gen.err r = None) \/
  (gen.err r = Some timeout_error /\ gen.ca r = [] /\ gen.crt r = [] /\
   (gen.timeout_after <= gen.at_time r)%N).
Proof.
  induction fuel as [|fuel IH]; intros w req now nextTick k r H;
    [discriminate|].
  cbn [gen.poll_loop] in H. cbv zeta in H.
  set (t := N.max now (N.min gen.timeout_after nextTick)) in *.
  destruct (gen.timeout_after <=? t)%N eqn:Ht; cbn [andb] in H.
  - destruct (negb (nextTick <=? t)%N || negb (gen.pick w k)).
    + injection H as <-. right. cbn. apply N.leb_le in Ht. auto.
    + unfold gen.Certificate in H.
      destruct (gen.certificate w req k) as [resp|e] eqn:Hc.
      * injection H as <-. left. exists k, resp. cbn. auto.
      * eapply IH, H.
  - unfold gen.Certificate in H.
    destruct (gen.certificate w req k) as [resp|e] eqn:Hc.
    + injection H as <-. left. exists k, resp. cbn. auto.
    + eapply IH, H.
Qed.

Lemma tick_time_next k :
  (gen.tick_every * (tick_time k / gen.tick_every + 1))%N = tick_time (S k).
Proof.
  unfold tick_time.
  replace (gen.tick_every * N.of_nat (S k) / gen.tick_every)%N
    with (N.of_nat (S k))
    by (rewrite (N.mul_comm gen.tick_every), N.div_mul by discriminate;
        reflexivity).
  f_equal. lia.
Qed.

Lemma tick_time_59 : tick_time 59 = gen.timeout_after.
Proof. reflexivity. Qed.

Lemma tick_time_lt k : (k < 59)%nat -> (tick_time k < gen.timeout_after)%N.
Proof.
  intros H. rewrite <- tick_time_59. unfold tick_time, gen.tick_every. lia.
Qed.

(** One iteration on a tick before the deadline. *)
Lemma poll_loop_tick fuel w req now k :
  (k < 59)%nat -> (now <= tick_time k)%N ->
  gen.poll_loop (S fuel) w req now (tick_time k) k
  = match gen.certificate w req k with
    | inl resp =>
        Some {| gen.ca := gen.Ca resp; gen.crt := gen.Crt resp;
                gen.err := None;
                gen.at_time := (tick_time k + gen.latency w k)%N |}
    | inr _ =>
        gen.poll_loop fuel w req (tick_time k + gen.latency w k)
          (tick_time (S k)) (S k)
    end.
Proof.
  intros Hk Hnow. pose proof (tick_time_lt k Hk) as Hlt.
  cbn [gen.poll_loop]. cbv zeta.
  replace (N.max now (N.min gen.timeout_after (tick_time k)))
    with (tick_time k) by lia.
  replace (gen.timeout_after <=? tick_time k)%N with false
    by (symmetry; apply N.leb_gt; exact Hlt).
  cbn [andb]. rewrite tick_time_next. unfold gen.Certificate.
  destruct (gen.certificate w req k); reflexivity.
Qed.

(** The iteration at the deadline, where the last tick and the timer are
    both ready. *)
Lemma poll_loop_deadline fuel w req now :
  (now <= gen.timeout_after)%N ->
  (gen.latency w 59 < gen.tick_every)%N ->
  (exists e, gen.certificate w req 59%nat = inr e) ->
  exists r,
    gen.poll_loop (S (S fuel)) w req now (tick_time 59) 59 = Some r /\
    gen.err r = Some timeout_error /\ gen.ca r = [] /\ gen.crt r = [] /\
    (gen.timeout_after <= gen.at_time r < gen.timeout_after + gen.tick_every)%N.
Proof.
  intros Hnow Hq [e He]. rewrite tick_time_59.
  cbn [gen.poll_loop]. cbv zeta.
  replace (N.max now (N.min gen.timeout_after gen.timeout_after))
    with gen.timeout_after by lia.
  rewrite N.leb_refl. cbn [andb negb orb].
  destruct (gen.pick w 59%nat); cbn [negb].
  - unfold gen.Certificate. rewrite He.
    set (now' := (gen.timeout_after + gen.latency w 59)%N).
    set (next := (gen.tick_every * (gen.timeout_after / gen.tick_every + 1))%N).
    assert (Hnext : next = (gen.timeout_after + gen.tick_every)%N)
      by reflexivity.
    replace (N.max now' (N.min gen.timeout_after next)) with now'
      by (subst now'; lia).
    replace (gen.timeout_after <=? now')%N with true
      by (symmetry; apply N.leb_le; subst now'; lia).
    replace (next <=? now')%N with false
      by (symmetry; apply N.leb_gt; subst now'; lia).
    cbn [andb negb orb]. eexists. split; [reflexivity|]. cbn.
    repeat split; subst now'; lia.
  - eexists. split; [reflexivity|]. cbn.
    repeat split; unfold gen.tick_every; lia.
Qed.

Section QuickCalls.

Variable w : gen.world.
Variable req : gen.CertificateRequest.

(** Every call is over before the next tick. *)
Hypothesis quick : forall j, (gen.latency w j < gen.tick_every)%N.

Lemma poll_loop_all_failed d : forall k now fuel,
  (k + d = 59)%nat -> (now <= tick_time k)%N -> (d + 2 <= fuel)%nat ->
  (forall j, exists e, gen.certificate w req j = inr e) ->
  exists r,
    gen.poll_loop fuel w req now (tick_time k) k = Some r /\
    gen.err r = Some timeout_error /\ gen.ca r = [] /\ gen.crt r = [] /\
    (gen.timeout_after <= gen.at_time r < gen.timeout_after + gen.tick_every)%N.
Proof.
  induction d as [|d IH]; intros k now fuel Hk Hnow Hfuel Hfail.
  - assert (k = 59%nat) as -> by lia.
    destruct fuel as [|[|fuel]]; [lia|lia|].
    apply poll_loop_deadline; [rewrite <- tick_time_59; exact Hnow|apply quick|
                               apply Hfail].
  - destruct fuel as [|fuel]; [lia|].
    rewrite poll_loop_tick by (try lia; exact Hnow).
    destruct (Hfail k) as [e ->].
    apply IH; [lia| |lia|exact Hfail].
    pose proof (quick k). unfold tick_time in *. lia.
Qed.

Lemma poll_loop_first_response d : forall k now fuel resp,
  (k + d < 59)%nat -> (now <= tick_time k)%N -> (d < fuel)%nat ->
  (forall j, (j < k + d)%nat -> exists e, gen.certificate w req j = inr e) ->
  gen.certificate w req (k + d)%nat = inl resp ->
  gen.poll_loop fuel w req now (tick_time k) k
  = Some {| gen.ca := gen.Ca resp; gen.crt := gen.Crt resp; gen.err := None;
            gen.at_time := (tick_time (k + d) + gen.latency w (k + d))%N |}.
Proof.
  induction d as [|d IH]; intros k now fuel resp Hk Hnow Hfuel Hfail Hresp;
    (destruct fuel as [|fuel]; [lia|]);
    rewrite poll_loop_tick by (try lia; exact Hnow).
  - rewrite Nat.add_0_r in *. rewrite Hresp. reflexivity.
  - destruct (Hfail k) as [e ->]; [lia|].
    replace (k + S d)%nat with (S k + d)%nat in * by lia.
    apply IH; [lia| |lia|exact Hfail|exact Hresp].
    pose proof (quick k). unfold tick_time in *. lia.
Qed.

End QuickCalls.

(** A successful exit is the exit at the first call that comes back without
    error: every call before it has failed. *)
Lemma poll_loop_exits_first fuel : forall w req now nextTick k r,
  (forall i, (i < k)%nat -> exists e, gen.certificate w req i = inr e) ->
  gen.poll_loop fuel w req now nextTick k = Some r ->
  (exists j resp,
     gen.certificate w req j = inl resp /\
     (forall i, (i < j)%nat -> exists e, gen.certificate w req i = inr e) /\
     gen.ca r = gen.Ca resp /\ gen.crt r = gen.Crt resp /\ gen.err r = None) \/
  (gen.err r = Some timeout_error /\ gen.ca r = [] /\ gen.crt r = [] /\
   (gen.timeout_after <= gen.at_time r)%N).
Proof.
  induction fuel as [|fuel IH]; intros w req now nextTick k r Hbefore H;
    [discriminate|].
  cbn [gen.poll_loop] in H. cbv zeta in H.
  set (t := N.max now (N.min gen.timeout_after nextTick)) in *.
  assert (Hcall :
            match gen.Certificate w k req with
            | inr _ =>
                gen.poll_loop fuel w req (t + gen.latency w k)
                  (gen.tick_every * (t / gen.tick_every + 1)) (S k)
            | inl resp =>
                Some {| gen.ca := gen.Ca resp; gen.crt := gen.Crt resp;
                        gen.err := None;
                        gen.at_time := (t + gen.latency w k)%N |}
            end = Some r ->
            (exists j resp,
               gen.certificate w req j = inl resp /\
               (forall i, (i < j)%nat ->
                          exists e, gen.certificate w req i = inr e) /\
               gen.ca r = gen.Ca resp /\ gen.crt r = gen.Crt resp /\
               gen.err r = None) \/
            (gen.err r = Some timeout_error /\ gen.ca r = [] /\
             gen.crt r = [] /\ (gen.timeout_after <= gen.at_time r)%N)).
  { unfold gen.Certificate.
    destruct (gen.certificate w req k) as [resp|e] eqn:Hc; intros Hr.
    - injection Hr as <-. left. exists k, resp. cbn. auto.
    - refine (IH w req _ _ (S k) r _ Hr).
      intros i Hi. destruct (Nat.eq_dec i k) as [->|Hne]; [eauto|].
      apply Hbefore. lia. }
  destruct (gen.timeout_after <=? t)%N eqn:Ht; cbn [andb] in H;
    [|exact (Hcall H)].
  destruct (negb (nextTick <=? t)%N || negb (gen.pick w k));
    [|exact (Hcall H)].
  injection H as <-. right. cbn. apply N.leb_le in Ht. auto.
Qed.

(** Calls that last one tick interval each, with a [select] that takes the
    tick whenever it is ready: the loop goes on for ever. *)
Lemma poll_loop_tick_long_calls fuel : forall m k,
  gen.poll_loop fuel tick_long_calls sample_request
    (gen.tick_every * m)%N (gen.tick_every * m)%N k = None.
Proof.
  induction fuel as [|fuel IH]; intros m k; [reflexivity|].
  cbn [gen.poll_loop]. cbv zeta.
  replace (N.max (gen.tick_every * m)
             (N.min gen.timeout_after (gen.tick_every * m)))%N
    with (gen.tick_every * m)%N by lia.
  rewrite N.leb_refl. cbn [negb orb]. rewrite andb_false_r.
  cbn [gen.Certificate gen.certificate gen.latency tick_long_calls].
  replace (gen.tick_every * m / gen.tick_every)%N with m
    by (rewrite (N.mul_comm gen.tick_every), N.div_mul by discriminate;
        reflexivity).
  replace (gen.tick_every * m + gen.tick_every)%N
    with (gen.tick_every * (m + 1))%N by lia.
  apply IH.
Qed.

(** C1, as the code has it. [poll] repeats only the calls that fail: when
    it returns without error, it returns the CA and certificate of the
    first call that came back without error, whatever they hold, and it
    returns the timeout error at or after the 5-minute deadline only, never
    before. The deadline is looked at between calls: when every call ends
    in less than the tick interval, the calls are made on the 5-second
    ticks, the response of a call made on a tick before the deadline is
    returned when that call ends, and when every call fails [poll] ends
    with the timeout error, not before the deadline and less than one tick
    interval after it. *)
Theorem poll_first_response_or_timeout (w : gen.world)
    (req : gen.CertificateRequest) :
  (forall fuel r,
     gen.poll fuel w req = Some r ->
     (exists j resp,
        gen.certificate w req j = inl resp /\
        (forall i, (i < j)%nat -> exists e, gen.certificate w req i = inr e) /\
        gen.ca r = gen.Ca resp /\ gen.crt r = gen.Crt resp /\
        gen.err r = None) \/
     (gen.err r = Some (errorString "timeout waiting for certificate") /\
      gen.ca r = [] /\ gen.crt r = [] /\
      (gen.timeout_after <= gen.at_time r)%N)) /\
  ((forall j, (gen.latency w j < gen.tick_every)%N) ->
   (forall K resp fuel,
      (K < 59)%nat -> (K < fuel)%nat ->
      (forall j, (j < K)%nat -> exists e, gen.certificate w req j = inr e) ->
      gen.certificate w req K = inl resp ->
      gen.poll fuel w req
      = Some {| gen.ca := gen.Ca resp; gen.crt := gen.Crt resp;
                gen.err := None;
                gen.at_time :=
                  (gen.tick_every * N.of_nat (S K) + gen.latency w K)%N |}) /\
   ((forall j, exists e, gen.certificate w req j = inr e) ->
    forall fuel, (61 <= fuel)%nat ->
    exists r,
      gen.poll fuel w req = Some r /\
      gen.err r = Some (errorString "timeout waiting for certificate") /\
      gen.ca r = [] /\ gen.crt r = [] /\
      (gen.timeout_after <= gen.at_time r
       < gen.timeout_after + gen.tick_every)%N)).
Proof.
  split.
  - intros fuel r H. unfold gen.poll in H.
    refine (poll_loop_exits_first fuel w req _ _ 0%nat r _ H).
    intros i Hi. lia.
  - intros quick. split.
    + intros K resp fuel HK Hfuel Hfail Hresp. unfold gen.poll.
      apply (poll_loop_first_response w req quick K 0 0%N fuel resp);
        try assumption; unfold tick_time, gen.tick_every; lia.
    + intros Hfail fuel Hfuel. unfold gen.poll.
      apply (poll_loop_all_failed w req quick 59 0 0%N fuel);
        try assumption; unfold tick_time, gen.tick_every; lia.
Qed.

Lemma poll_first_response_or_timeout_witness :
  gen.poll 3 issued_on_third sample_request
  = Some {| gen.ca := list_byte_of_string "CA";
            gen.crt := list_byte_of_string "CRT";
            gen.err := None; gen.at_time := 15020%N |} /\
  (exists r,
     gen.poll 61 unavailable_cancelled sample_request = Some r /\
     gen.err r = Some (errorString "timeout waiting for certificate") /\
     gen.ca r = [] /\ gen.crt r = [] /\
     (gen.timeout_after <= gen.at_time r
      < gen.timeout_after + gen.tick_every)%N) /\
  ((exists j resp,
      gen.certificate slow_first_call sample_request j = inl resp /\
      (forall i, (i < j)%nat ->
         exists e, gen.certificate slow_first_call sample_request i = inr e) /\
      [] = gen.Ca resp /\ [] = gen.Crt resp /\
      Some (errorString "timeout waiting for certificate") = None) \/
   (Some (errorString "timeout waiting for certificate")
    = Some (errorString "timeout waiting for certificate") /\
    @nil byte = [] /\ @nil byte = [] /\
    (gen.timeout_after <= 905020)%N)).
Proof.
  split; [|split].
  - apply (proj1 (proj2 (poll_first_response_or_timeout issued_on_third
                           sample_request) (fun _ => eq_refl)) 2%nat
             {| gen.Ca := list_byte_of_string "CA";
                gen.Crt := list_byte_of_string "CRT" |} 3%nat);
      [lia|lia| |reflexivity].
    intros j Hj. exists (errorString "rpc error: unavailable").
    destruct j as [|[|j]]; [reflexivity|reflexivity|lia].
  - apply (proj2 (proj2 (poll_first_response_or_timeout unavailable_cancelled
                           sample_request) (fun _ => eq_refl)));
      [intros j; eexists; reflexivity|lia].
  - apply (proj1 (poll_first_response_or_timeout slow_first_call
                    sample_request) 3%nat
             {| gen.ca := []; gen.crt := [];
                gen.err := Some (errorString "timeout waiting for certificate");
                gen.at_time := 905020%N |}).
    vm_compute. reflexivity.
Defined.

(** C1, as stated, fails: a response without error and without certificate
    ends the polling at the first tick, with a nil error. And the 5-minute
    bound holds for short calls only: after a failed call of 15 minutes the
    timeout error comes 15 minutes late, and with calls that last exactly
    one tick interval the loop may never end. *)
Lemma poll_empty_response_counterexample :
  (forall k, gen.certificate never_issued sample_request k
             = inl {| gen.Ca := []; gen.Crt := [] |}) /\
  gen.poll 1 never_issued sample_request
  = Some {| gen.ca := []; gen.crt := []; gen.err := None;
            gen.at_time := 5000%N |} /\
  ~ (forall w req,
       (forall k, gen.certificate w req k
                  = inl {| gen.Ca := []; gen.Crt := [] |}) ->
       forall fuel r,
         gen.poll fuel w req = Some r ->
         gen.err r = Some (errorString "timeout waiting for certificate") /\
         (gen.timeout_after <= gen.at_time r)%N) /\
  gen.poll 3 slow_first_call sample_request
  = Some {| gen.ca := []; gen.crt := [];
            gen.err := Some (errorString "timeout waiting for certificate");
            gen.at_time := 905020%N |} /\
  (forall j, (gen.latency tick_long_calls j <= gen.tick_every)%N) /\
  (forall fuel, gen.poll fuel tick_long_calls sample_request = None) /\
  ~ (forall w req,
       (forall k, exists e, gen.certificate w req k = inr e) ->
       exists fuel r,
         gen.poll fuel w req = Some r /\
         (gen.at_time r < gen.timeout_after + gen.tick_every)%N).
Proof.
  assert (Hnever : forall fuel,
            gen.poll fuel tick_long_calls sample_request = None).
  { intros [|fuel]; [reflexivity|]. unfold gen.poll.
    change gen.tick_every with (tick_time 0).
    rewrite poll_loop_tick by (unfold tick_time, gen.tick_every; lia).
    cbn [gen.certificate gen.latency tick_long_calls].
    change (tick_time 0 + gen.tick_every)%N with (gen.tick_every * 2)%N.
    change (tick_time 1) with (gen.tick_every * 2)%N.
    apply poll_loop_tick_long_calls. }
  split; [reflexivity|]. split; [reflexivity|]. split; [|split; [|split; [|split]]].
  - intros H.
    destruct (H never_issued sample_request (fun _ => eq_refl) 1%nat _ eq_refl)
      as [He _].
    discriminate.
  - vm_compute. reflexivity.
  - intros j. cbn. lia.
  - exact Hnever.
  - intros H.
    destruct (H tick_long_calls sample_request) as (fuel & r & Hr & _).
    + intros k. eexists. reflexivity.
    + rewrite Hnever in Hr. discriminate.
Qed.

Lemma poll_loop_cancel_at fuel : forall w c req now nextTick k,
  gen.poll_loop fuel w req now nextTick k
  = gen.poll_loop fuel
      {| gen.certificate := gen.certificate w; gen.latency := gen.latency w;
         gen.pick := gen.pick w; gen.cancel_at := c |}
      req now nextTick k.
Proof.
  induction fuel as [|fuel IH]; intros w c req now nextTick k; [reflexivity|].
  cbn [gen.poll_loop gen.pick gen.latency]. unfold gen.Certificate.
  cbn [gen.certificate]. cbv zeta.
  rewrite <- !IH. reflexivity.
Qed.

(** C3, as the code has it. The issuance takes no cancellation signal: the
    outcome of [poll], and of [Identity], is the same whenever and whether
    the caller gives up, and a call that has started returns only with the
    response of a call that came back without error or, at or after the
    5-minute deadline, with the timeout error. *)
Theorem poll_ignores_cancellation (w : gen.world)
    (req : gen.CertificateRequest) (fuel : nat) :
  (forall c,
     let w' := {| gen.certificate := gen.certificate w;
                  gen.latency := gen.latency w;
                  gen.pick := gen.pick w; gen.cancel_at := c |} in
     gen.poll fuel w req = gen.poll fuel w' req /\
     gen.Identity fuel w (gen.Csr req) = gen.Identity fuel w' (gen.Csr req)) /\
  (forall r,
     gen.poll fuel w req = Some r ->
     (exists j resp,
        gen.certificate w req j = inl resp /\
        gen.ca r = gen.Ca resp /\ gen.crt r = gen.Crt resp /\
        gen.err r = None) \/
     (gen.err r = Some (errorString "timeout waiting for certificate") /\
      gen.ca r = [] /\ gen.crt r = [] /\
      (gen.timeout_after <= gen.at_time r)%N)).
Proof.
  split.
  - intros c w'. unfold gen.Identity, gen.poll.
    rewrite <- !(poll_loop_cancel_at fuel w c). auto.
  - intros r H. eapply poll_loop_exits, H.
Qed.

Lemma poll_ignores_cancellation_witness :
  gen.poll 61 unavailable_cancelled sample_request
  = Some {| gen.ca := []; gen.crt := [];
            gen.err := Some (errorString "timeout waiting for certificate");
            gen.at_time := 300020%N |} /\
  ((exists j resp,
      gen.certificate unavailable_cancelled sample_request j = inl resp /\
      [] = gen.Ca resp /\ [] = gen.Crt resp /\
      Some (errorString "timeout waiting for certificate") = None) \/
   (Some (errorString "timeout waiting for certificate")
    = Some (errorString "timeout waiting for certificate") /\
    @nil byte = [] /\ @nil byte = [] /\
    (gen.timeout_after <= 300020)%N)).
Proof.
  assert (H : gen.poll 61 unavailable_cancelled sample_request
              = Some {| gen.ca := []; gen.crt := [];
                        gen.err := Some (errorString "timeout waiting for certificate");
                        gen.at_time := 300020%N |})
    by (vm_compute; reflexivity).
  split; [exact H|].
  exact (proj2 (poll_ignores_cancellation unavailable_cancelled
                  sample_request 61) _ H).
Defined.

(** C3, as stated, fails: with a caller that gives up after 7 seconds and a
    trust service that fails every call, [poll] returns at the 5-minute
    deadline with the timeout error. *)
Lemma poll_cancellation_counterexample :
  gen.cancel_at unavailable_cancelled = Some 7000%N /\
  gen.poll 61 unavailable_cancelled sample_request
  = Some {| gen.ca := []; gen.crt := [];
            gen.err := Some (errorString "timeout waiting for certificate");
            gen.at_time := 300020%N |} /\
  ~ (forall w req tc,
       gen.cancel_at w = Some tc ->
       exists fuel r,
         gen.poll fuel w req = Some r /\
         (gen.at_time r <= tc + gen.tick_every)%N).
Proof.
  split; [reflexivity|]. split; [vm_compute; reflexivity|].
  intros H.
  destruct (H unavailable_cancelled sample_request 7000%N eq_refl)
    as (fuel & r & Hr & Ht).
  apply poll_loop_exits in Hr as [(j & resp & Hc & _)|(_ & _ & _ & Hd)].
  - discriminate Hc.
  - unfold gen.timeout_after, gen.tick_every in *. lia.
Qed.
